(** * Rundeck/Ansible demo: the SQLite task logger and its query service

    A shallow embedding of [sqlite_logger.py] (the Ansible callback plugin
    that appends one row per task outcome to the table [task_logs]) and of
    [app.py] (the Flask handlers [api_playbooks] and [api_logs] that read
    the same table), with the properties of the specification stated over
    them.

    Conventions.
    - A Python [str] is the [string] of its UTF-8 bytes (every literal of
      the program is ASCII); a [str] that has no UTF-8 encoding, one with a
      lone surrogate, is outside the model, and so is text in the database
      that is not UTF-8.
    - Python exceptions are values of [PyExn]; code that can raise lives in
      the monad [M], and [try ... except] is [try_except].
    - The SQLite database is the value [Store]: the table [task_logs], if it
      exists, with its column names, its rows and its AUTOINCREMENT counter.
    - What the operating system, the clock and the Ansible engine supply
      (does the directory exist, does [os.makedirs] succeed, what does
      [json.dumps] return on this payload, ...) is read from explicit
      environment records. *)

From Stdlib Require Import List String Ascii ZArith Lia Bool DecimalString.
From Stdlib Require Import Sorting.Sorted Sorting.Permutation.
Import ListNotations.

Local Open Scope string_scope.
Local Open Scope Z_scope.

(** ** Python values and library functions used by the program *)

Module Py.

(** Truth value of a [str]: the empty string is false. *)
Definition truthy_str (s : string) : bool :=
  match s with
  | EmptyString => false
  | String _ _ => true
  end.

(** The values [result._result.get('changed', False)] can yield, with
    Python's truth test: [None], [False], zero and empty containers are
    false. *)
Inductive value :=
| VNone
| VBool (b : bool)
| VInt (n : Z)
| VStr (s : string)
| VList (len : nat).

Definition truthy (v : value) : bool :=
  match v with
  | VNone => false
  | VBool b => b
  | VInt n => negb (n =? 0)
  | VStr s => truthy_str s
  | VList len => negb (Nat.eqb len 0)
  end.

(** [dict.get(key, default)] on a lookup result. *)
Definition get_default (found : option value) (default : value) : value :=
  match found with
  | Some v => v
  | None => default
  end.

(** [c * n] for a one-character string [c]. *)
Fixpoint repeat_char (c : ascii) (n : nat) : string :=
  match n with
  | O => EmptyString
  | S n' => String c (repeat_char c n')
  end.

(** A byte of the form 10xxxxxx: it continues a character of UTF-8 text. *)
Definition is_continuation (b : ascii) : bool :=
  let n := nat_of_ascii b in (Nat.leb 128 n && Nat.ltb n 192)%bool.

(** [len(s)]: the number of characters, one per byte that does not
    continue a character. *)
Fixpoint len (s : string) : nat :=
  match s with
  | EmptyString => O
  | String b rest => if is_continuation b then len rest else S (len rest)
  end.

(** [str.zfill(width)]: pad with ASCII zeros on the left up to [width]
    characters; a leading sign stays in front of the padding. *)
Definition zfill (s : string) (width : nat) : string :=
  if Nat.leb width (len s) then s
  else
    let fill := repeat_char "0"%char (width - len s) in
    match s with
    | String c rest =>
        if (Ascii.eqb c "+" || Ascii.eqb c "-")%bool
        then String c (fill ++ rest)
        else fill ++ s
    | EmptyString => fill
    end.

(** [os.path.basename] (posixpath): what follows the last slash. *)
Fixpoint has_slash (p : string) : bool :=
  match p with
  | EmptyString => false
  | String c rest => (Ascii.eqb c "/" || has_slash rest)%bool
  end.

Fixpoint basename (p : string) : string :=
  match p with
  | EmptyString => EmptyString
  | String c rest =>
      if has_slash rest then basename rest
      else if Ascii.eqb c "/" then rest else p
  end.

(** ASCII lower case, the folding SQLite applies in [LIKE] and to
    identifiers. *)
Definition lower (c : ascii) : ascii :=
  let n := nat_of_ascii c in
  if (Nat.leb 65 n && Nat.leb n 90)%bool then ascii_of_nat (n + 32) else c.

Fixpoint lower_str (s : string) : string :=
  match s with
  | EmptyString => EmptyString
  | String c rest => String (lower c) (lower_str rest)
  end.

(** Exceptions (subclasses of [Exception]) the program can meet. *)
Inductive PyExn :=
| OSError
| ValueError
| TypeError
| RecursionError
| OverflowError
| sqlite3_OperationalError
| sqlite3_DatabaseError
| sqlite3_InterfaceError.

(** [isinstance(e, sqlite3.Error)]. *)
Definition is_sqlite3_Error (e : PyExn) : bool :=
  match e with
  | sqlite3_OperationalError | sqlite3_DatabaseError | sqlite3_InterfaceError => true
  | _ => false
  end.

Definition is_sqlite3_OperationalError (e : PyExn) : bool :=
  match e with
  | sqlite3_OperationalError => true
  | _ => false
  end.

Definition is_OSError (e : PyExn) : bool :=
  match e with
  | OSError => true
  | _ => false
  end.

(** [isinstance(e, Exception)]: every modelled exception. *)
Definition is_Exception (e : PyExn) : bool := true.

(** What the database can oppose to a statement for reasons outside the
    program: nothing; a lock or an I/O error, raised as
    [sqlite3.OperationalError]; or another failure of the engine (a
    malformed file), raised as a [sqlite3.DatabaseError] that is not an
    [OperationalError]. *)
Inductive Fault :=
| no_fault
| operational_fault
| database_fault.

End Py.

(** ** Timestamps

    The recorder binds [datetime.datetime.now()]; the [sqlite3] module stores
    it as the text [isoformat(" ")].  A row keeps the datetime value; SQLite
    sees its text. *)

Module DateTime.

Record t := mk {
  year : nat;
  month : nat;
  day : nat;
  hour : nat;
  minute : nat;
  second : nat;
  microsecond : nat
}.

(** ["%0<w>d" % n]. *)
Definition pad (w : nat) (n : nat) : string :=
  let digits := NilZero.string_of_uint (Nat.to_uint n) in
  (Py.repeat_char "0"%char (w - String.length digits) ++ digits)%string.

(** [datetime.isoformat(" ")]: the fraction is printed only when it is
    not zero. *)
Definition isoformat (d : t) : string :=
  (pad 4 (year d) ++ "-" ++ pad 2 (month d) ++ "-" ++ pad 2 (day d) ++ " " ++
   pad 2 (hour d) ++ ":" ++ pad 2 (minute d) ++ ":" ++ pad 2 (second d) ++
   (if Nat.eqb (microsecond d) 0 then EmptyString else "." ++ pad 6 (microsecond d)))%string.

(** SQLite's [strftime] on the stored text, for the four formats the
    query service uses. *)
Definition strftime_Y (d : t) : string := pad 4 (year d).
Definition strftime_m (d : t) : string := pad 2 (month d).
Definition strftime_d (d : t) : string := pad 2 (day d).
Definition strftime_H (d : t) : string := pad 2 (hour d).

End DateTime.

(** ** The store: the SQLite database file with its table [task_logs] *)

Module Store.

(** One row of [task_logs].  Every column but [id] and [timestamp] is
    nullable ([None] is SQL NULL); a row of a table that pre-dates a column
    reads NULL there. *)
Record Row := mkRow {
  id : Z;
  timestamp : DateTime.t;
  inventory_hostname : option string;
  playbook : option string;
  playbook_uuid : option string;
  module : option string;
  task_name : option string;
  status : option string;
  result : option string
}.

Record Table := mkTable {
  columns : list string;
  rows : list Row;
  (** the AUTOINCREMENT counter kept in [sqlite_sequence] *)
  sequence : Z
}.

(** [None]: the database holds no table [task_logs] (a fresh file). *)
Definition t := option Table.

(** Column names are compared without regard to ASCII case. *)
Definition same_column (a b : string) : bool :=
  String.eqb (Py.lower_str a) (Py.lower_str b).

Definition has_column (c : string) (tb : Table) : bool :=
  existsb (same_column c) (columns tb).

(** The column list of the [CREATE TABLE IF NOT EXISTS task_logs] statement
    of [_initialize_db], in its order. *)
Definition create_columns : list string :=
  ["id"; "timestamp"; "inventory_hostname"; "playbook"; "playbook_uuid";
   "module"; "task_name"; "status"; "result"].

(** [CREATE TABLE IF NOT EXISTS task_logs (...)]. *)
Definition create_table_if_not_exists (s : t) : t :=
  match s with
  | Some tb => Some tb
  | None => Some (mkTable create_columns [] 0)
  end.

(** [ALTER TABLE task_logs ADD COLUMN c TEXT]: an error when the table is
    missing or already has the column; otherwise the column is appended and
    reads NULL in the existing rows. *)
Definition alter_table_add_column (c : string) (s : t) : Py.PyExn + t :=
  match s with
  | None => inl Py.sqlite3_OperationalError
  | Some tb =>
      if has_column c tb then inl Py.sqlite3_OperationalError
      else inr (Some (mkTable (columns tb ++ [c]) (rows tb) (sequence tb)))
  end.

(** The columns named by the [INSERT] statement of [_log_result]. *)
Definition insert_columns : list string :=
  ["timestamp"; "inventory_hostname"; "playbook"; "playbook_uuid";
   "module"; "task_name"; "status"; "result"].

(** [INSERT INTO task_logs (timestamp, ..., result) VALUES (?, ..., ?)]:
    an error when the table or one of the named columns is missing;
    otherwise one row is appended under the next AUTOINCREMENT id. *)
Definition insert
    (ts : DateTime.t) (host pb pb_uuid action task st res : string) (s : t)
  : Py.PyExn + t :=
  match s with
  | None => inl Py.sqlite3_OperationalError
  | Some tb =>
      if forallb (fun c => has_column c tb) insert_columns then
        let new_id := sequence tb + 1 in
        let r := mkRow new_id ts (Some host) (Some pb) (Some pb_uuid)
                       (Some action) (Some task) (Some st) (Some res) in
        inr (Some (mkTable (columns tb) (rows tb ++ [r]) new_id))
      else inl Py.sqlite3_OperationalError
  end.

End Store.

(** ** The event recorder ([sqlite_logger.py], class [CallbackModule]) *)

Module Recorder.

(** What [_initialize_db] meets outside the program: the directory part of
    the resolved database path, whether [os.makedirs], [sqlite3.connect]
    and the first statement sent to the database succeed, and what the
    database opposes to the [ALTER TABLE] of each column. *)
Record Env := mkEnv {
  full_path : string;
  db_dir : string;
  makedirs_ok : bool;
  connect_ok : bool;
  ddl_ok : bool;
  alter_fault : string -> Py.Fault
}.

(** What one task-outcome callback meets: the clock reading of
    [datetime.datetime.now()] and whether the database accepts the write
    (it does not under lock contention or an I/O error).  A refused write
    is taken to fail as a whole: nothing of it stays pending in the
    connection. *)
Record IO := mkIO {
  now : DateTime.t;
  write_ok : bool
}.

(** The file system and the database, which outlive the process. *)
Record World := mkWorld {
  dir_exists : bool;
  store : Store.t
}.

(** Messages passed to [self._display.warning]. *)
Inductive Warning :=
| CouldNotCreateDirectory (dir : string) (e : Py.PyExn)
| CouldNotInitializeDB (path : string) (e : Py.PyExn)
| CouldNotLogTask (e : Py.PyExn).

(** The attributes of the [CallbackModule] instance. *)
Record Callback := mkCallback {
  db_connection : option string;
  playbook_name : string;
  playbook_uuid : string;
  _display : list Warning
}.

Record State := mkState {
  world : World;
  self : Callback
}.

(** *** State and exceptions *)

Definition M (A : Type) : Type := State -> (Py.PyExn + A) * State.

Definition ret {A : Type} (a : A) : M A := fun st => (inr a, st).

Definition raise {A : Type} (e : Py.PyExn) : M A := fun st => (inl e, st).

Definition bind {A B : Type} (m : M A) (k : A -> M B) : M B :=
  fun st =>
    match m st with
    | (inl e, st') => (inl e, st')
    | (inr a, st') => k a st'
    end.

(** [try: body / except <class> as e: handler e]; what [body] did to the
    state before raising stays done. *)
Definition try_except {A : Type}
    (body : M A) (class : Py.PyExn -> bool) (handler : Py.PyExn -> M A) : M A :=
  fun st =>
    match body st with
    | (inl e, st') => if class e then handler e st' else (inl e, st')
    | (inr a, st') => (inr a, st')
    end.

Definition get : M State := fun st => (inr st, st).

Definition put (st : State) : M unit := fun _ => (inr tt, st).

Declare Scope py_scope.
Delimit Scope py_scope with py.
Notation "x <- m ;; k" := (bind m (fun x => k))
  (at level 61, m at next level, right associativity) : py_scope.
Notation "m ;; k" := (bind m (fun _ => k))
  (at level 61, right associativity) : py_scope.
Local Open Scope py_scope.

(** *** Attribute updates and library calls *)

Definition set_db_connection (c : option string) : M unit :=
  st <- get ;;
  put (mkState (world st)
         (mkCallback c (playbook_name (self st)) (playbook_uuid (self st))
                     (_display (self st)))).

Definition set_playbook_name (n : string) : M unit :=
  st <- get ;;
  put (mkState (world st)
         (mkCallback (db_connection (self st)) n (playbook_uuid (self st))
                     (_display (self st)))).

Definition set_playbook_uuid (u : string) : M unit :=
  st <- get ;;
  put (mkState (world st)
         (mkCallback (db_connection (self st)) (playbook_name (self st)) u
                     (_display (self st)))).

Definition warning (w : Warning) : M unit :=
  st <- get ;;
  put (mkState (world st)
         (mkCallback (db_connection (self st)) (playbook_name (self st))
                     (playbook_uuid (self st)) (_display (self st) ++ [w]))).

Definition set_store (s : Store.t) : M unit :=
  st <- get ;;
  put (mkState (mkWorld (dir_exists (world st)) s) (self st)).

Definition os_path_exists_db_dir : M bool :=
  st <- get ;; ret (dir_exists (world st)).

Definition os_makedirs (env : Env) : M unit :=
  if makedirs_ok env then
    st <- get ;; put (mkState (mkWorld true (store (world st))) (self st))
  else raise Py.OSError.

Definition sqlite3_connect (env : Env) : M string :=
  if connect_ok env then ret (full_path env)
  else raise Py.sqlite3_OperationalError.

Definition execute_create_table (env : Env) : M unit :=
  if ddl_ok env then
    st <- get ;; set_store (Store.create_table_if_not_exists (store (world st)))
  else raise Py.sqlite3_OperationalError.

Definition execute_alter_table_add_column (env : Env) (c : string) : M unit :=
  match alter_fault env c with
  | Py.operational_fault => raise Py.sqlite3_OperationalError
  | Py.database_fault => raise Py.sqlite3_DatabaseError
  | Py.no_fault =>
      st <- get ;;
      match Store.alter_table_add_column c (store (world st)) with
      | inl e => raise e
      | inr s => set_store s
      end
  end.

(** The [INSERT] followed by [commit()]. *)
Definition execute_insert_and_commit
    (io : IO) (host pb pb_uuid action task st res : string) : M unit :=
  if write_ok io then
    s <- get ;;
    match Store.insert (now io) host pb pb_uuid action task st res
                       (store (world s)) with
    | inl e => raise e
    | inr s' => set_store s'
    end
  else raise Py.sqlite3_OperationalError.

(** *** [_initialize_db] *)

Definition _initialize_db (env : Env) : M unit :=
  (* 1. Create Directory *)
  present <- os_path_exists_db_dir ;;
  proceed <-
    (if (Py.truthy_str (db_dir env) && negb present)%bool then
       try_except
         (os_makedirs env ;; ret true)
         Py.is_OSError
         (fun e => warning (CouldNotCreateDirectory (db_dir env) e) ;; ret false)
     else ret true) ;;
  if (proceed : bool) then
    (* 2. Connect and Create Table *)
    try_except
      (conn <- sqlite3_connect env ;;
       set_db_connection (Some conn) ;;
       execute_create_table env ;;
       (* 3. SCHEMA MIGRATION (For existing databases) *)
       try_except (execute_alter_table_add_column env "playbook")
                  Py.is_sqlite3_OperationalError (fun _ => ret tt) ;;
       try_except (execute_alter_table_add_column env "playbook_uuid")
                  Py.is_sqlite3_OperationalError (fun _ => ret tt) ;;
       try_except (execute_alter_table_add_column env "module")
                  Py.is_sqlite3_OperationalError (fun _ => ret tt) ;;
       ret tt)
      Py.is_sqlite3_Error
      (fun e => warning (CouldNotInitializeDB (full_path env) e))
  else ret tt.

(** [CallbackModule.__init__]: a new instance over the world as it is. *)
Definition __init__ (env : Env) (w : World) : (Py.PyExn + unit) * State :=
  _initialize_db env (mkState w (mkCallback None "Ad-Hoc" "N/A" [])).

(** *** The callbacks *)

(** What the recorder reads of the [result] object of a task-outcome
    callback: [result._host.get_name()], [result.task_name],
    [result._task.action], the lookup of ['changed'] in [result._result],
    and what [json.dumps(result._result, default=str)] does on it (a string,
    or the exception it raises). *)
Record TaskResult := mkTaskResult {
  host_name : string;
  task_name : string;
  action : string;
  changed : option Py.value;
  dumps : Py.PyExn + string
}.

Definition json_dumps (result : TaskResult) : M string :=
  match dumps result with
  | inl e => raise e
  | inr s => ret s
  end.

Definition v2_playbook_on_start (file_name : string) (_uuid : option string) : M unit :=
  set_playbook_name (Py.basename file_name) ;;
  match _uuid with
  | Some u => set_playbook_uuid u
  | None => ret tt
  end.

Definition _log_result (io : IO) (result : TaskResult) (status : string) : M unit :=
  st <- get ;;
  match db_connection (self st) with
  | None => ret tt
  | Some _ =>
      let inventory_hostname := host_name result in
      let task := task_name result in
      let module_name := action result in
      result_json <-
        try_except (json_dumps result) Py.is_Exception
                   (fun _ => ret "Could not serialize result") ;;
      try_except
        (st' <- get ;;
         execute_insert_and_commit io inventory_hostname
           (playbook_name (self st')) (playbook_uuid (self st'))
           module_name task status result_json)
        Py.is_sqlite3_Error
        (fun e => warning (CouldNotLogTask e))
  end.

Definition v2_runner_on_ok (io : IO) (result : TaskResult) : M unit :=
  let status :=
    if Py.truthy (Py.get_default (changed result) (Py.VBool false))
    then "CHANGED" else "OK" in
  _log_result io result status.

Definition v2_runner_on_failed (io : IO) (result : TaskResult) (ignore_errors : bool)
  : M unit :=
  let status := if ignore_errors then "FAILED_IGNORED" else "FAILED" in
  _log_result io result status.

Definition v2_runner_on_unreachable (io : IO) (result : TaskResult) : M unit :=
  _log_result io result "UNREACHABLE".

Definition v2_runner_on_skipped (io : IO) (result : TaskResult) : M unit :=
  _log_result io result "SKIPPED".

(** *** Signals of the automation engine *)

Inductive Kind := ok | failed | unreachable | skipped.

Inductive Signal :=
| RunStart (file_name : string) (_uuid : option string)
| TaskOutcome (kind : Kind) (io : IO) (result : TaskResult) (ignore_errors : bool).

(** The engine's dispatch; [ignore_errors] is passed to the [failed]
    callback only. *)
Definition deliver (sg : Signal) : M unit :=
  match sg with
  | RunStart f u => v2_playbook_on_start f u
  | TaskOutcome ok io r _ => v2_runner_on_ok io r
  | TaskOutcome failed io r ign => v2_runner_on_failed io r ign
  | TaskOutcome unreachable io r _ => v2_runner_on_unreachable io r
  | TaskOutcome skipped io r _ => v2_runner_on_skipped io r
  end.

Fixpoint deliver_all (sgs : list Signal) : M unit :=
  match sgs with
  | [] => ret tt
  | sg :: rest => deliver sg ;; deliver_all rest
  end.

(** One process: the plugin is instantiated, then receives the signals. *)
Definition process (env : Env) (sgs : list Signal) (w : World)
  : (Py.PyExn + unit) * State :=
  match __init__ env w with
  | (inl e, st) => (inl e, st)
  | (inr _, st) => deliver_all sgs st
  end.

(** *** Notions used to state the recorder's properties *)

(** The rows the store holds ([[]] while the table does not exist). *)
Definition stored_rows (w : World) : list Store.Row :=
  match store w with
  | Some tb => Store.rows tb
  | None => []
  end.

(** The store takes the recorder's [INSERT]: the table exists and has the
    eight columns the statement names. *)
Definition insertable (s : Store.t) : bool :=
  match s with
  | Some tb => forallb (fun c => Store.has_column c tb) Store.insert_columns
  | None => false
  end.

(** The status table of the specification, over the event kind, the truth
    of the payload's [changed] flag and the caller's ignore-errors flag. *)
Definition spec_status (k : Kind) (changed_flag ignore_errors : bool) : string :=
  match k with
  | ok => if changed_flag then "CHANGED" else "OK"
  | failed => if ignore_errors then "FAILED_IGNORED" else "FAILED"
  | unreachable => "UNREACHABLE"
  | skipped => "SKIPPED"
  end.

(** The [changed] flag of a payload: absent counts as false. *)
Definition changed_flag (r : TaskResult) : bool :=
  match changed r with
  | Some v => Py.truthy v
  | None => false
  end.

(** The fixed text stored when the payload cannot be serialized. *)
Definition placeholder : string := "Could not serialize result".

(** The text [_log_result] stores in the column [result]. *)
Definition stored_json (r : TaskResult) : string :=
  match dumps r with
  | inr s => s
  | inl _ => placeholder
  end.

(** The entry [_log_result] writes in state [st]. *)
Definition entry_row (st : State) (io : IO) (r : TaskResult) (status : string)
  (tb : Store.Table) : Store.Row :=
  Store.mkRow (Store.sequence tb + 1) (now io)
    (Some (host_name r)) (Some (playbook_name (self st)))
    (Some (playbook_uuid (self st))) (Some (action r)) (Some (task_name r))
    (Some status) (Some (stored_json r)).

Definition with_store (st : State) (s : Store.t) : State :=
  mkState (mkWorld (dir_exists (world st)) s) (self st).

Definition with_warning (st : State) (w : Warning) : State :=
  mkState (world st)
    (mkCallback (db_connection (self st)) (playbook_name (self st))
       (playbook_uuid (self st)) (_display (self st) ++ [w])).

(** The run identifier and the run name in force after the signals [sgs],
    starting from [current]: those of the most recent run-start signal that
    carried one. *)
Fixpoint run_uuid (current : string) (sgs : list Signal) : string :=
  match sgs with
  | [] => current
  | RunStart _ (Some u) :: rest => run_uuid u rest
  | _ :: rest => run_uuid current rest
  end.

Fixpoint run_name (current : string) (sgs : list Signal) : string :=
  match sgs with
  | [] => current
  | RunStart f _ :: rest => run_name (Py.basename f) rest
  | _ :: rest => run_name current rest
  end.

(** The table already has the three columns of the migration step. *)
Definition migrated (s : Store.t) : bool :=
  match s with
  | Some tb =>
      (Store.has_column "playbook" tb && Store.has_column "playbook_uuid" tb
       && Store.has_column "module" tb)%bool
  | None => false
  end.

(** The plugin is instantiated once per environment of [envs], one process
    after the other, over the same world. *)
Fixpoint initialize_each (envs : list Env) (w : World) : (Py.PyExn + unit) * World :=
  match envs with
  | [] => (inr tt, w)
  | env :: rest =>
      match __init__ env w with
      | (inl e, st) => (inl e, world st)
      | (inr _, st) => initialize_each rest (world st)
      end
  end.

(** One guarded [ALTER TABLE] of the migration step. *)
Definition try_add_column (env : Env) (c : string) : M unit :=
  try_except (execute_alter_table_add_column env c)
             Py.is_sqlite3_OperationalError (fun _ => ret tt).

(** The store after one guarded [ALTER TABLE] under [env], or the
    exception that passes the guard. *)
Definition add_column_under (env : Env) (c : string) (s : Store.t)
  : Py.PyExn + Store.t :=
  match alter_fault env c with
  | Py.no_fault =>
      inr match Store.alter_table_add_column c s with
          | inr s' => s'
          | inl _ => s
          end
  | Py.operational_fault => inr s
  | Py.database_fault => inl Py.sqlite3_DatabaseError
  end.

(** The store after the migration step under [env], with the exception
    that ended it early, if one did. *)
Definition migrate_under (env : Env) (s : Store.t) : Store.t * option Py.PyExn :=
  match add_column_under env "playbook" s with
  | inl e => (s, Some e)
  | inr s1 =>
      match add_column_under env "playbook_uuid" s1 with
      | inl e => (s1, Some e)
      | inr s2 =>
          match add_column_under env "module" s2 with
          | inl e => (s2, Some e)
          | inr s3 => (s3, None)
          end
      end
  end.

(** No [ALTER TABLE] of the migration step meets a fault. *)
Definition alters_attempted (env : Env) : bool :=
  forallb (fun c => match alter_fault env c with
                    | Py.no_fault => true
                    | _ => false
                    end) ["playbook"; "playbook_uuid"; "module"].

(** No [ALTER TABLE] of the migration step meets a fault that passes its
    guard. *)
Definition alters_guarded (env : Env) : bool :=
  forallb (fun c => match alter_fault env c with
                    | Py.database_fault => false
                    | _ => true
                    end) ["playbook"; "playbook_uuid"; "module"].

(** The store after the three guarded [ALTER TABLE] statements. *)
Definition migrate (s : Store.t) : Store.t :=
  let add c s := match Store.alter_table_add_column c s with
                 | inr s' => s'
                 | inl _ => s
                 end in
  add "module" (add "playbook_uuid" (add "playbook" s)).

(** The base table as the specification lists its columns. *)
Definition spec_base_columns : list string :=
  ["id"; "timestamp"; "inventory_hostname"; "playbook"; "task_name";
   "status"; "result"].

(** *** Concrete inputs used in examples *)

Definition example_env : Env :=
  mkEnv "/var/cache/ansible_logs/logs.db" "/var/cache/ansible_logs" true true true
        (fun _ => Py.no_fault).

(** The directory is there and the connection opens, but every
    [ALTER TABLE] meets a locked database. *)
Definition example_env_alters_locked : Env :=
  mkEnv "/var/cache/ansible_logs/logs.db" "/var/cache/ansible_logs" true true true
        (fun _ => Py.operational_fault).

Definition example_env_mkdir_fails : Env :=
  mkEnv "/var/cache/ansible_logs/logs.db" "/var/cache/ansible_logs" false true true
        (fun _ => Py.no_fault).

(** No directory, no database yet. *)
Definition fresh_world : World := mkWorld false None.

Definition example_io : IO := mkIO (DateTime.mk 2024 3 5 7 8 9 0) true.

(** A payload with [changed] true that [json.dumps] cannot serialize. *)
Definition example_result : TaskResult :=
  mkTaskResult "web01" "Install package" "yum" (Some (Py.VBool true))
               (inl Py.TypeError).

(** The state of a process right after a successful initialization on
    [fresh_world]. *)
Definition example_state : State := snd (__init__ example_env fresh_world).

Definition example_table : Store.Table :=
  Store.mkTable Store.create_columns [] 0.

(** *** Notions used to state further properties of the recorder *)

(** The entries a recorder that is connected and never fails to write
    appends for the signals [sgs], in arrival order: [name] and [uuid] are
    the run name and identifier in force, [next] the id the store gives
    next. *)
Fixpoint written (name uuid : string) (next : Z) (sgs : list Signal)
  : list Store.Row :=
  match sgs with
  | [] => []
  | RunStart f u :: rest =>
      written (Py.basename f)
              (match u with Some v => v | None => uuid end) next rest
  | TaskOutcome k io r ign :: rest =>
      Store.mkRow next (now io) (Some (host_name r)) (Some name) (Some uuid)
        (Some (action r)) (Some (task_name r))
        (Some (spec_status k (changed_flag r) ign)) (Some (stored_json r))
      :: written name uuid (next + 1) rest
  end.

(** The status the recorder derives for a task-outcome signal. *)
Definition signal_status (sg : Signal) : string :=
  match sg with
  | TaskOutcome k _ r ign => spec_status k (changed_flag r) ign
  | RunStart _ _ => EmptyString
  end.

(** No task outcome of [sgs] meets a store that refuses the write. *)
Definition all_writes_ok (sgs : list Signal) : bool :=
  forallb (fun sg => match sg with
                     | TaskOutcome _ io _ _ => write_ok io
                     | RunStart _ _ => true
                     end) sgs.

Definition is_task_outcome (sg : Signal) : bool :=
  match sg with
  | TaskOutcome _ _ _ _ => true
  | RunStart _ _ => false
  end.

(** The ids of a table follow insertion order and stay below the
    AUTOINCREMENT counter. *)
Definition well_sequenced (s : Store.t) : Prop :=
  match s with
  | Some tb =>
      StronglySorted (fun a b => Store.id a < Store.id b) (Store.rows tb) /\
      Forall (fun r => Store.id r <= Store.sequence tb) (Store.rows tb)
  | None => True
  end.

(** [_initialize_db] gets past its first step: the directory is there or
    can be made. *)
Definition directory_ready (env : Env) (w : World) : bool :=
  (negb (Py.truthy_str (db_dir env) && negb (dir_exists w)) || makedirs_ok env)%bool.

(** A table as databases had it before the columns [playbook_uuid] and
    [module] existed, with one row. *)
Definition legacy_table : Store.Table :=
  Store.mkTable spec_base_columns
    [Store.mkRow 1 (DateTime.mk 2023 1 2 3 4 5 0) (Some "web01") (Some "old.yml")
       None None (Some "Ping") (Some "OK") (Some "{}")]
    1.

Definition example_env_connect_fails : Env :=
  mkEnv "/var/cache/ansible_logs/logs.db" "/var/cache/ansible_logs" true false true
        (fun _ => Py.no_fault).

Definition example_env_ddl_fails : Env :=
  mkEnv "/var/cache/ansible_logs/logs.db" "/var/cache/ansible_logs" true true false
        (fun _ => Py.no_fault).

Definition example_io_write_fails : IO := mkIO (DateTime.mk 2024 3 5 7 8 9 0) false.

(** A serializable payload without [changed]. *)
Definition plain_result : TaskResult :=
  mkTaskResult "web01" "Ping" "ping" None (inr "{}").

(** The task outcomes of a run: three ok, one failed, one skipped. *)
Definition example_outcomes : list Signal :=
  [TaskOutcome ok example_io plain_result false;
   TaskOutcome ok example_io example_result false;
   TaskOutcome ok example_io plain_result false;
   TaskOutcome failed example_io plain_result false;
   TaskOutcome skipped example_io plain_result false].

(** A run with identifier "u1": one ok and one failed task. *)
Definition example_signals : list Signal :=
  [RunStart "/srv/site.yml" (Some "u1");
   TaskOutcome ok example_io example_result false;
   TaskOutcome failed example_io example_result true].

End Recorder.

(** ** SQL evaluation used by the query service *)

Module Sql.

Import Store.

(** The text a C string holds: the bytes before the first NUL. *)
Fixpoint c_str (s : string) : string :=
  match s with
  | EmptyString => EmptyString
  | String b rest =>
      if Ascii.eqb b Ascii.zero then EmptyString else String b (c_str rest)
  end.

(** A byte of the form 11xxxxxx: it starts a character of several bytes. *)
Definition is_lead (b : ascii) : bool := Nat.leb 192 (nat_of_ascii b).

(** The bytes that continue the character a lead byte starts: the run of
    one-byte continuation pieces at the head of what follows. *)
Fixpoint take_continuations (pieces : list string) : string * list string :=
  match pieces with
  | String b EmptyString :: rest =>
      if Py.is_continuation b then
        let (run, others) := take_continuations rest in (String b run, others)
      else (EmptyString, pieces)
  | _ => (EmptyString, pieces)
  end.

(** The characters of UTF-8 text, each as its bytes, cut the way SQLite
    reads them: a lead byte takes the continuation bytes that follow it,
    any other byte stands alone. *)
Fixpoint utf8_chars (s : string) : list string :=
  match s with
  | EmptyString => []
  | String b rest =>
      let pieces := utf8_chars rest in
      if is_lead b then
        let (run, others) := take_continuations pieces in
        String b run :: others
      else String b EmptyString :: pieces
  end.

(** Two characters match: the same bytes, ASCII letters compared without
    regard to case. *)
Definition same_char (a b : string) : bool :=
  String.eqb (Py.lower_str a) (Py.lower_str b).

(** [LIKE] on characters: [%] matches any run of characters, [_] any one
    character; there is no escape character. *)
Fixpoint like_chars (pattern text : list string) : bool :=
  match pattern with
  | [] =>
      match text with
      | [] => true
      | _ :: _ => false
      end
  | p :: pattern' =>
      if String.eqb p "%" then
        (fix any_suffix (t : list string) : bool :=
           (like_chars pattern' t ||
            match t with
            | [] => false
            | _ :: t' => any_suffix t'
            end)%bool) text
      else
        match text with
        | [] => false
        | c :: text' =>
            ((String.eqb p "_" || same_char p c) && like_chars pattern' text')%bool
        end
  end.

(** [text LIKE pattern] with SQLite's defaults.  Both operands are read as
    C strings, character by character. *)
Definition like (pattern text : string) : bool :=
  like_chars (utf8_chars (c_str pattern)) (utf8_chars (c_str text)).

(** SQLite refuses a [LIKE] pattern of more than 50000 bytes ("LIKE or GLOB
    pattern too complex"). *)
Definition max_like_pattern_length : Z := 50000.

(** The integers SQLite stores, and the [sqlite3] module binds: signed, on
    64 bits. *)
Definition in_int64 (z : Z) : bool :=
  ((- 9223372036854775808 <=? z) && (z <=? 9223372036854775807))%bool.

(** The conditions [api_logs] appends to [where_clause], each with the
    parameter it appends to [params]. *)
Inductive Cond :=
| LikeParam (column : string) (param : string)
| EqParam (column : string) (param : string)
| StrftimeEqParam (format : string) (param : string).

(** The text columns a condition can name. *)
Definition column_text (column : string) (r : Row) : option string :=
  if String.eqb column "inventory_hostname" then inventory_hostname r
  else if String.eqb column "playbook" then playbook r
  else if String.eqb column "playbook_uuid" then playbook_uuid r
  else if String.eqb column "module" then module r
  else if String.eqb column "task_name" then task_name r
  else if String.eqb column "status" then status r
  else if String.eqb column "result" then result r
  else None.

Definition strftime (format : string) (ts : DateTime.t) : option string :=
  if String.eqb format "%Y" then Some (DateTime.strftime_Y ts)
  else if String.eqb format "%m" then Some (DateTime.strftime_m ts)
  else if String.eqb format "%d" then Some (DateTime.strftime_d ts)
  else if String.eqb format "%H" then Some (DateTime.strftime_H ts)
  else None.

(** A condition holds of a row; a NULL operand makes it NULL, which a
    [WHERE] treats as not holding. *)
Definition holds (c : Cond) (r : Row) : bool :=
  match c with
  | LikeParam column param =>
      match column_text column r with
      | Some v => like param v
      | None => false
      end
  | EqParam column param =>
      match column_text column r with
      | Some v => String.eqb v param
      | None => false
      end
  | StrftimeEqParam format param =>
      match strftime format (timestamp r) with
      | Some v => String.eqb v param
      | None => false
      end
  end.

(** [WHERE 1=1 AND c1 AND ... AND cn]. *)
Definition where_holds (where_clause : list Cond) (r : Row) : bool :=
  forallb (fun c => holds c r) where_clause.

(** The [LIKE] of the condition is refused for the length of its pattern. *)
Definition too_complex (c : Cond) : bool :=
  match c with
  | LikeParam _ param => max_like_pattern_length <? Z.of_nat (String.length param)
  | _ => false
  end.

(** Evaluating the conditions on a row, in their order and up to the first
    that does not hold, meets a refused [LIKE]. *)
Fixpoint refused_on (where_clause : list Cond) (r : Row) : bool :=
  match where_clause with
  | [] => false
  | c :: rest =>
      if too_complex c then true
      else if holds c r then refused_on rest r
      else false
  end.

(** The column a condition names; preparing a statement that names a
    column the table lacks is an error. *)
Definition names_column (c : Cond) : string :=
  match c with
  | LikeParam column _ => column
  | EqParam column _ => column
  | StrftimeEqParam _ _ => "timestamp"
  end.

Definition prepared (where_clause : list Cond) (tb : Table) : bool :=
  forallb (fun c => has_column (names_column c) tb) where_clause.

(** [ORDER BY id DESC]. *)
Fixpoint insert_by_id_desc (r : Row) (sorted : list Row) : list Row :=
  match sorted with
  | [] => [r]
  | r' :: rest =>
      if id r' <=? id r then r :: sorted
      else r' :: insert_by_id_desc r rest
  end.

Fixpoint order_by_id_desc (rs : list Row) : list Row :=
  match rs with
  | [] => []
  | r :: rest => insert_by_id_desc r (order_by_id_desc rest)
  end.

(** The list without its first [k] elements, and its first [n] elements;
    a count below 1 skips, or takes, nothing. *)
Fixpoint drop {A : Type} (k : Z) (l : list A) : list A :=
  match l with
  | [] => []
  | _ :: rest => if 0 <? k then drop (k - 1) rest else l
  end.

Fixpoint take {A : Type} (n : Z) (l : list A) : list A :=
  match l with
  | [] => []
  | x :: rest => if 0 <? n then x :: take (n - 1) rest else []
  end.

(** [LIMIT n OFFSET k]: a negative offset counts as zero, a negative limit
    as no limit. *)
Definition limit_offset {A : Type} (n k : Z) (l : list A) : list A :=
  let skipped := drop k l in
  if n <? 0 then skipped else take n skipped.

(** [SELECT COUNT( * ) FROM task_logs WHERE ...]: an error when the
    statement cannot be prepared (no table, a column missing) or when the
    scan meets a refused [LIKE]. *)
Definition select_count (s : Store.t) (where_clause : list Cond) : Py.PyExn + Z :=
  match s with
  | None => inl Py.sqlite3_OperationalError
  | Some tb =>
      if prepared where_clause tb then
        if existsb (refused_on where_clause) (rows tb)
        then inl Py.sqlite3_OperationalError
        else inr (Z.of_nat (List.length (filter (where_holds where_clause) (rows tb))))
      else inl Py.sqlite3_OperationalError
  end.

(** [SELECT * FROM task_logs WHERE ... ORDER BY id DESC LIMIT ? OFFSET ?]:
    the statement is prepared, then [limit] and [offset] are bound, which
    raises [OverflowError] for an integer outside 64 bits, then the rows
    are scanned (none under [LIMIT 0]). *)
Definition select_page
    (s : Store.t) (where_clause : list Cond) (limit offset : Z)
  : Py.PyExn + list Row :=
  match s with
  | None => inl Py.sqlite3_OperationalError
  | Some tb =>
      if (prepared where_clause tb && has_column "id" tb)%bool then
        if (in_int64 limit && in_int64 offset)%bool then
          if (negb (limit =? 0) && existsb (refused_on where_clause) (rows tb))%bool
          then inl Py.sqlite3_OperationalError
          else inr (limit_offset limit offset
                      (order_by_id_desc
                         (filter (where_holds where_clause) (rows tb))))
        else inl Py.OverflowError
      else inl Py.sqlite3_OperationalError
  end.

End Sql.

(** ** The query service ([app.py]) *)

Module QueryService.

Import Store.

Definition PER_PAGE : Z := 100.

(** A handler returns a JSON body, or an error body with status 500. *)
Inductive Response (A : Type) :=
| Json (body : A)
| Error500 (error : string).
Arguments Json {A} body.
Arguments Error500 {A} error.

(** [get_db]: the connection of the request, which stands for the store it
    reads, or [None] when [sqlite3.connect] raises a [sqlite3.Error].  The
    handlers below take its result as [db]; a store they are given is one
    they can read (no writer holds it locked past the timeout). *)
Definition get_db (connect : Py.PyExn + Store.t) : Py.PyExn + option Store.t :=
  match connect with
  | inr db => inr (Some db)
  | inl e => if Py.is_sqlite3_Error e then inr None else inl e
  end.

(** *** [api_playbooks] *)

Record Summary := mkSummary {
  s_playbook_uuid : string;
  s_playbook : option string;
  start_time : string;
  end_time : string;
  task_count : Z
}.

(** The text SQLite compares and returns for a row's timestamp. *)
Definition timestamp_text (r : Row) : string := DateTime.isoformat (timestamp r).

(** [WHERE playbook_uuid IS NOT NULL AND playbook_uuid != 'N/A']. *)
Definition has_run_uuid (r : Row) : bool :=
  match playbook_uuid r with
  | None => false
  | Some u => negb (String.eqb u "N/A")
  end.

Definition in_group (u : string) (r : Row) : bool :=
  match playbook_uuid r with
  | None => false
  | Some v => String.eqb v u
  end.

(** The keys of [GROUP BY playbook_uuid]: each value once. *)
Definition group_keys (rs : list Row) : list string :=
  nodup string_dec
    (flat_map (fun r => match playbook_uuid r with
                        | Some u => [u]
                        | None => []
                        end) rs).

(** The row holding [MIN(timestamp)] / [MAX(timestamp)] of a group (text
    comparison, byte by byte), starting from a first row. *)
Fixpoint min_row (best : Row) (rs : list Row) : Row :=
  match rs with
  | [] => best
  | r :: rest =>
      min_row (if String.ltb (timestamp_text r) (timestamp_text best)
               then r else best) rest
  end.

Fixpoint max_row (best : Row) (rs : list Row) : Row :=
  match rs with
  | [] => best
  | r :: rest =>
      max_row (if String.ltb (timestamp_text best) (timestamp_text r)
               then r else best) rest
  end.

(** One output row per group.  The bare column [playbook] is read from the
    row that holds the maximum, the row of the aggregate SQLite computes
    last. *)
Definition summarize (u : string) (group : list Row) : list Summary :=
  match group with
  | [] => []
  | r :: rest =>
      [mkSummary u (playbook (max_row r rest))
                 (timestamp_text (min_row r rest))
                 (timestamp_text (max_row r rest))
                 (Z.of_nat (List.length group))]
  end.

(** [ORDER BY start_time DESC]. *)
Fixpoint insert_by_start_desc (s : Summary) (sorted : list Summary) : list Summary :=
  match sorted with
  | [] => [s]
  | s' :: rest =>
      if String.leb (start_time s') (start_time s) then s :: sorted
      else s' :: insert_by_start_desc s rest
  end.

Fixpoint order_by_start_desc (l : list Summary) : list Summary :=
  match l with
  | [] => []
  | s :: rest => insert_by_start_desc s (order_by_start_desc rest)
  end.

(** The aggregate query of [api_playbooks] over the rows of the table. *)
Definition playbook_runs (rs : list Row) : list Summary :=
  let selected := filter has_run_uuid rs in
  order_by_start_desc
    (flat_map (fun u => summarize u (filter (in_group u) selected))
              (group_keys selected)).

Definition api_playbooks (db : option Store.t)
  : Py.PyExn + Response (list Summary) :=
  match db with
  | None => inr (Error500 "Could not connect to database")
  | Some None => inl Py.sqlite3_OperationalError
  | Some (Some tb) =>
      if forallb (fun c => has_column c tb) ["playbook_uuid"; "playbook"; "timestamp"]
      then inr (Json (playbook_runs (rows tb)))
      else inl Py.sqlite3_OperationalError
  end.

(** *** [api_logs] *)

(** What [int(...)] does on the [page] argument when it is present. *)
Inductive IntOf :=
| IsInt (n : Z)
| NotInt.

(** The query string: each argument absent or present with its text. *)
Record Request := mkRequest {
  arg_host : option string;
  arg_playbook : option string;
  arg_playbook_uuid : option string;
  arg_module : option string;
  arg_task : option string;
  arg_status : option string;
  arg_year : option string;
  arg_month : option string;
  arg_day : option string;
  arg_hour : option string;
  arg_page : option IntOf
}.

(** [request.args.get(key, default)]. *)
Definition args_get (arg : option string) (default : string) : string :=
  match arg with
  | Some v => v
  | None => default
  end.

(** [int(request.args.get('page', 1))]. *)
Definition int_page (arg : option IntOf) : Py.PyExn + Z :=
  match arg with
  | None => inr 1
  | Some (IsInt n) => inr n
  | Some NotInt => inl Py.ValueError
  end.

(** [math.ceil(a / b)] for a count [a] and positive [b], in exact
    arithmetic (the float quotient is exact enough for this below 2^53). *)
Definition math_ceil_div (a b : Z) : Z := - ((- a) / b).

Record Entry := mkEntry {
  e_id : Z;
  e_timestamp : string;
  e_inventory_hostname : option string;
  e_playbook : string;
  e_playbook_uuid : string;
  e_module : string;
  e_task_name : option string;
  e_status : option string;
  e_result : option string
}.

Record LogsBody := mkLogsBody {
  data : list Entry;
  page : Z;
  total_pages : Z;
  total_records : Z
}.

(** [row[k] if k in keys and row[k] else "-"], [keys] being the table's
    column names. *)
Definition or_dash (k : string) (keys : list string) (v : option string) : string :=
  if existsb (String.eqb k) keys then
    match v with
    | Some s => if Py.truthy_str s then s else "-"
    | None => "-"
    end
  else "-".

Definition entry_of (keys : list string) (row : Row) : Entry :=
  let pb := or_dash "playbook" keys (playbook row) in
  let pb_uuid := or_dash "playbook_uuid" keys (playbook_uuid row) in
  let md := or_dash "module" keys (module row) in
  mkEntry (id row) (timestamp_text row) (inventory_hostname row)
          pb pb_uuid md (task_name row) (status row) (result row).

(** [if test: where_clause += ...; params.append(...)]. *)
Definition and_if (test : bool) (c : Sql.Cond) (where_clause : list Sql.Cond)
  : list Sql.Cond :=
  if test then where_clause ++ [c] else where_clause.

(** Step 2 of [api_logs]: the clause both queries use. *)
Definition build_where (rq : Request) : list Sql.Cond :=
  let host := args_get (arg_host rq) EmptyString in
  let playbook := args_get (arg_playbook rq) EmptyString in
  let playbook_uuid := args_get (arg_playbook_uuid rq) EmptyString in
  let module := args_get (arg_module rq) EmptyString in
  let task := args_get (arg_task rq) EmptyString in
  let status := args_get (arg_status rq) "ALL" in
  let year := args_get (arg_year rq) EmptyString in
  let month := args_get (arg_month rq) EmptyString in
  let day := args_get (arg_day rq) EmptyString in
  let hour := args_get (arg_hour rq) EmptyString in
  let w := [] in
  let w := and_if (Py.truthy_str host)
             (Sql.LikeParam "inventory_hostname" ("%" ++ host ++ "%")) w in
  let w := and_if (Py.truthy_str playbook)
             (Sql.LikeParam "playbook" ("%" ++ playbook ++ "%")) w in
  let w := and_if (Py.truthy_str playbook_uuid)
             (Sql.EqParam "playbook_uuid" playbook_uuid) w in
  let w := and_if (Py.truthy_str module)
             (Sql.LikeParam "module" ("%" ++ module ++ "%")) w in
  let w := and_if (Py.truthy_str task)
             (Sql.LikeParam "task_name" ("%" ++ task ++ "%")) w in
  let w := and_if (negb (String.eqb status "ALL"))
             (Sql.EqParam "status" status) w in
  (* Date Logic *)
  let w := and_if (Py.truthy_str year) (Sql.StrftimeEqParam "%Y" year) w in
  let w := and_if (Py.truthy_str month)
             (Sql.StrftimeEqParam "%m" (Py.zfill month 2)) w in
  let w := and_if (Py.truthy_str day)
             (Sql.StrftimeEqParam "%d" (Py.zfill day 2)) w in
  let w := and_if (Py.truthy_str hour)
             (Sql.StrftimeEqParam "%H" (Py.zfill hour 2)) w in
  w.

Definition api_logs (db : option Store.t) (rq : Request)
  : Py.PyExn + Response LogsBody :=
  match db with
  | None => inr (Error500 "Could not connect to database")
  | Some s =>
      (* 1. filter parameters and pagination *)
      let page :=
        match int_page (arg_page rq) with
        | inr n => n
        | inl _ => 1
        end in
      let offset := (page - 1) * PER_PAGE in
      (* 2. base query *)
      let where_clause := build_where rq in
      (* 3. total count *)
      match Sql.select_count s where_clause with
      | inl e => inl e
      | inr total_records =>
          let total_pages := math_ceil_div total_records PER_PAGE in
          (* 4. data *)
          match Sql.select_page s where_clause PER_PAGE offset with
          | inl e => inl e
          | inr rows =>
              let keys := match s with
                          | Some tb => columns tb
                          | None => []
                          end in
              inr (Json (mkLogsBody (map (entry_of keys) rows)
                                    page total_pages total_records))
          end
      end
  end.

(** *** Notions used to state the query service's properties *)

(** The page [api_logs] serves: the [page] argument, or 1 when it is absent
    or not an integer. *)
Definition page_of (rq : Request) : Z :=
  match int_page (arg_page rq) with
  | inr n => n
  | inl _ => 1
  end.

(** The same request for page [p]. *)
Definition set_page (rq : Request) (p : Z) : Request :=
  mkRequest (arg_host rq) (arg_playbook rq) (arg_playbook_uuid rq)
    (arg_module rq) (arg_task rq) (arg_status rq) (arg_year rq)
    (arg_month rq) (arg_day rq) (arg_hour rq) (Some (IsInt p)).

(** The same request with another [month], [day] or [hour] argument. *)
Definition set_month (rq : Request) (v : option string) : Request :=
  mkRequest (arg_host rq) (arg_playbook rq) (arg_playbook_uuid rq)
    (arg_module rq) (arg_task rq) (arg_status rq) (arg_year rq)
    v (arg_day rq) (arg_hour rq) (arg_page rq).

Definition set_day (rq : Request) (v : option string) : Request :=
  mkRequest (arg_host rq) (arg_playbook rq) (arg_playbook_uuid rq)
    (arg_module rq) (arg_task rq) (arg_status rq) (arg_year rq)
    (arg_month rq) v (arg_hour rq) (arg_page rq).

Definition set_hour (rq : Request) (v : option string) : Request :=
  mkRequest (arg_host rq) (arg_playbook rq) (arg_playbook_uuid rq)
    (arg_module rq) (arg_task rq) (arg_status rq) (arg_year rq)
    (arg_month rq) (arg_day rq) v (arg_page rq).

(** The rows of the table that pass the filters of the request. *)
Definition matching (s : Store.t) (rq : Request) : list Row :=
  match s with
  | Some tb => filter (Sql.where_holds (build_where rq)) (rows tb)
  | None => []
  end.

(** The table exists with the columns of the persisted schema. *)
Definition queryable (s : Store.t) : bool :=
  match s with
  | Some tb => forallb (fun c => has_column c tb) create_columns
  | None => false
  end.

(** The entries [api_logs] returns for page [p] of the request ([[]] when
    it does not answer with a JSON body). *)
Definition page_data (db : option Store.t) (rq : Request) (p : Z) : list Entry :=
  match api_logs db (set_page rq p) with
  | inr (Json body) => data body
  | _ => []
  end.

(** Pages 1 to [n], one after the other. *)
Definition pages_concatenated (db : option Store.t) (rq : Request) (n : nat)
  : list Entry :=
  List.concat (map (fun i => page_data db rq (Z.of_nat i)) (seq 1 n)).

(** [a] may stand before [b] in [ORDER BY start_time DESC]. *)
Definition newer_first (a b : Summary) : Prop :=
  String.leb (start_time b) (start_time a) = true.

(** A request without any argument. *)
Definition no_args : Request :=
  mkRequest None None None None None None None None None None None.

(** Two entries of run "u1", one at 07h and one at 13h. *)
Definition example_store : Store.t :=
  Some (mkTable create_columns
          [mkRow 1 (DateTime.mk 2024 3 5 7 8 9 0) (Some "web01") (Some "site.yml")
                 (Some "u1") (Some "yum") (Some "Install") (Some "OK") (Some "{}");
           mkRow 2 (DateTime.mk 2024 3 5 13 0 0 250) (Some "web01") (Some "site.yml")
                 (Some "u1") (Some "copy") (Some "Configure") (Some "CHANGED")
                 (Some "{}")]
          2).

(** *** What the database engine can serve *)

(** The pattern [api_logs] builds from a substring filter, two [%] around
    the text, is within the length SQLite accepts. *)
Definition pattern_ok (arg : option string) : bool :=
  Z.of_nat (String.length (args_get arg EmptyString)) + 2
  <=? Sql.max_like_pattern_length.

Definition like_patterns_ok (rq : Request) : bool :=
  (pattern_ok (arg_host rq) && pattern_ok (arg_playbook rq)
   && pattern_ok (arg_module rq) && pattern_ok (arg_task rq))%bool.

(** The offset of page [p] can be bound as a 64-bit integer. *)
Definition page_in_range (p : Z) : bool := Sql.in_int64 ((p - 1) * PER_PAGE).

(** The table has no more rows than a 64-bit row id can number. *)
Definition rows_in_range (s : Store.t) : bool :=
  match s with
  | Some tb => Z.of_nat (List.length (rows tb)) <=? 9223372036854775807
  | None => true
  end.

(** *** Notions used to state further properties of the query service *)

(** An argument given as the empty text, read as not given. *)
Definition blank_as_absent (arg : option string) : option string :=
  match arg with
  | Some EmptyString => None
  | _ => arg
  end.

(** The [status] argument "ALL", read as not given. *)
Definition all_as_absent (arg : option string) : option string :=
  match arg with
  | Some v => if String.eqb v "ALL" then None else arg
  | None => None
  end.

(** The request with its empty arguments and its "ALL" status left out. *)
Definition without_blanks (rq : Request) : Request :=
  mkRequest (blank_as_absent (arg_host rq)) (blank_as_absent (arg_playbook rq))
    (blank_as_absent (arg_playbook_uuid rq)) (blank_as_absent (arg_module rq))
    (blank_as_absent (arg_task rq)) (all_as_absent (arg_status rq))
    (blank_as_absent (arg_year rq)) (blank_as_absent (arg_month rq))
    (blank_as_absent (arg_day rq)) (blank_as_absent (arg_hour rq))
    (arg_page rq).

(** Entries come newest id first. *)
Definition id_descending (a b : Entry) : Prop := e_id b <= e_id a.

(** The request for the entries of run [u] with status [v]. *)
Definition run_status_request (u v : string) : Request :=
  mkRequest None None (Some u) None None (Some v) None None None None None.

End QueryService.

(** * Properties of the recorder *)

Module RecorderFacts.

Import Recorder.
Local Open Scope py_scope.
Local Open Scope list_scope.

Ltac unfold_m :=
  unfold try_except, bind, ret, raise, get, put, set_store, warning,
    set_db_connection, set_playbook_name, set_playbook_uuid in *.

Lemma insert_error (ts : DateTime.t) (h p u a t s j : string) (st : Store.t) (e : Py.PyExn) :
  Store.insert ts h p u a t s j st = inl e -> e = Py.sqlite3_OperationalError.
Proof.
  unfold Store.insert. destruct st as [tb|]; [|congruence].
  destruct (forallb _ _); congruence.
Qed.

Lemma insert_insertable (ts : DateTime.t) (h p u a t s j : string) (tb : Store.Table) :
  insertable (Some tb) = true ->
  Store.insert ts h p u a t s j (Some tb) =
  inr (Some (Store.mkTable (Store.columns tb)
               (Store.rows tb ++
                [Store.mkRow (Store.sequence tb + 1) ts (Some h) (Some p) (Some u)
                   (Some a) (Some t) (Some s) (Some j)])
               (Store.sequence tb + 1))).
Proof.
  unfold insertable, Store.insert. intros ->. reflexivity.
Qed.

(** What [_log_result] does, case by case. *)
Lemma _log_result_disabled (io : IO) (r : TaskResult) (status : string) (st : State) :
  db_connection (self st) = None ->
  _log_result io r status st = (inr tt, st).
Proof.
  intros H. unfold _log_result. unfold_m. rewrite H. reflexivity.
Qed.

Lemma _log_result_written (io : IO) (r : TaskResult) (status : string) (st : State)
    (c : string) (tb : Store.Table) :
  db_connection (self st) = Some c ->
  store (world st) = Some tb ->
  insertable (Some tb) = true ->
  write_ok io = true ->
  _log_result io r status st =
  (inr tt,
   with_store st
     (Some (Store.mkTable (Store.columns tb)
              (Store.rows tb ++ [entry_row st io r status tb])
              (Store.sequence tb + 1)))).
Proof.
  intros Hc Hs Hi Hw. unfold _log_result, json_dumps, execute_insert_and_commit.
  unfold_m. rewrite Hc, Hw.
  unfold entry_row, stored_json, placeholder.
  destruct (dumps r) as [e|j]; cbn [Py.is_Exception];
    rewrite Hs, (insert_insertable _ _ _ _ _ _ _ _ _ Hi); reflexivity.
Qed.

(** No exception leaves [_log_result], whatever the payload, the clock and
    the store do. *)
Lemma _log_result_returns (io : IO) (r : TaskResult) (status : string) (st : State) :
  fst (_log_result io r status st) = inr tt.
Proof.
  unfold _log_result, json_dumps, execute_insert_and_commit. unfold_m.
  destruct (db_connection (self st)); [|reflexivity].
  destruct (dumps r) as [e|j]; cbn [Py.is_Exception];
    destruct (write_ok io); try reflexivity;
    match goal with
    | |- context [Store.insert ?a ?b ?c ?d ?e ?f ?g ?h ?s] =>
        destruct (Store.insert a b c d e f g h s) as [x|s'] eqn:E;
        [apply insert_error in E; subst x|]; reflexivity
    end.
Qed.

Lemma deliver_task_outcome (k : Kind) (io : IO) (r : TaskResult) (ign : bool) :
  deliver (TaskOutcome k io r ign) =
  _log_result io r (spec_status k (changed_flag r) ign).
Proof.
  destruct k; cbn [deliver spec_status];
    unfold v2_runner_on_ok, v2_runner_on_failed, v2_runner_on_unreachable,
      v2_runner_on_skipped, changed_flag, Py.get_default; try reflexivity.
  destruct (changed r); reflexivity.
Qed.

(** *** Initialization *)

Lemma state_eta (st : State) :
  mkState (mkWorld (dir_exists (world st)) (store (world st))) (self st) = st.
Proof. destruct st as [[d s] sf]; reflexivity. Qed.

Lemma alter_error (c : string) (s : Store.t) (e : Py.PyExn) :
  Store.alter_table_add_column c s = inl e -> e = Py.sqlite3_OperationalError.
Proof.
  unfold Store.alter_table_add_column. destruct s as [tb|]; [|congruence].
  destruct (Store.has_column c tb); congruence.
Qed.

(** A guarded [ALTER TABLE]: it adds the column or leaves the store as it
    is, or lets pass the exception its guard does not catch. *)
Lemma try_add_column_run (env : Env) (c : string) (st : State) :
  try_add_column env c st =
  match add_column_under env c (store (world st)) with
  | inr s' => (inr tt, with_store st s')
  | inl e => (inl e, st)
  end.
Proof.
  unfold try_add_column, execute_alter_table_add_column, add_column_under,
    with_store.
  destruct (alter_fault env c); unfold_m; cbn.
  - destruct (Store.alter_table_add_column c (store (world st))) as [e|s'] eqn:E.
    + apply alter_error in E. subst e. cbn. now rewrite state_eta.
    + reflexivity.
  - now rewrite state_eta.
  - reflexivity.
Qed.

Lemma add_column_under_error (env : Env) (c : string) (s : Store.t) (e : Py.PyExn) :
  add_column_under env c s = inl e -> e = Py.sqlite3_DatabaseError.
Proof.
  unfold add_column_under. destruct (alter_fault env c); congruence.
Qed.

Lemma migrate_under_error (env : Env) (s s' : Store.t) (e : Py.PyExn) :
  migrate_under env s = (s', Some e) -> e = Py.sqlite3_DatabaseError.
Proof.
  unfold migrate_under.
  destruct (add_column_under env "playbook" s) as [e1|s1] eqn:E1;
    [intros [= _ <-]; now apply add_column_under_error in E1|].
  destruct (add_column_under env "playbook_uuid" s1) as [e2|s2] eqn:E2;
    [intros [= _ <-]; now apply add_column_under_error in E2|].
  destruct (add_column_under env "module" s2) as [e3|s3] eqn:E3;
    [intros [= _ <-]; now apply add_column_under_error in E3|discriminate].
Qed.

(** Without fault, the migration step is the three additions. *)
Lemma migrate_under_attempted (env : Env) (s : Store.t) :
  alters_attempted env = true ->
  migrate_under env s = (migrate s, None).
Proof.
  unfold alters_attempted. cbn [forallb]. intros H.
  apply andb_prop in H. destruct H as [H1 H].
  apply andb_prop in H. destruct H as [H2 H].
  apply andb_prop in H. destruct H as [H3 _].
  unfold migrate_under, add_column_under, migrate.
  destruct (alter_fault env "playbook"); try discriminate.
  destruct (alter_fault env "playbook_uuid"); try discriminate.
  destruct (alter_fault env "module"); try discriminate.
  reflexivity.
Qed.

(** [_initialize_db] in closed form. *)
Lemma _initialize_db_run (env : Env) (st : State) :
  _initialize_db env st =
  let sf := self st in
  let w := world st in
  let must_create := (Py.truthy_str (db_dir env) && negb (dir_exists w))%bool in
  if (must_create && negb (makedirs_ok env))%bool then
    (inr tt, with_warning st (CouldNotCreateDirectory (db_dir env) Py.OSError))
  else
    let w1 := mkWorld (if must_create then true else dir_exists w) (store w) in
    if negb (connect_ok env) then
      (inr tt, with_warning (mkState w1 sf)
                 (CouldNotInitializeDB (full_path env) Py.sqlite3_OperationalError))
    else
      let sf1 := mkCallback (Some (full_path env)) (playbook_name sf)
                            (playbook_uuid sf) (_display sf) in
      if negb (ddl_ok env) then
        (inr tt, with_warning (mkState w1 sf1)
                   (CouldNotInitializeDB (full_path env) Py.sqlite3_OperationalError))
      else
        match migrate_under env (Store.create_table_if_not_exists (store w)) with
        | (s', None) => (inr tt, mkState (mkWorld (dir_exists w1) s') sf1)
        | (s', Some e) =>
            (inr tt,
             with_warning (mkState (mkWorld (dir_exists w1) s') sf1)
               (CouldNotInitializeDB (full_path env) e))
        end.
Proof.
  destruct st as [[d s] sf].
  unfold _initialize_db, os_path_exists_db_dir, os_makedirs, sqlite3_connect,
    execute_create_table.
  fold (try_add_column env "playbook") (try_add_column env "playbook_uuid")
    (try_add_column env "module").
  destruct (Py.truthy_str (db_dir env)), d, (makedirs_ok env), (connect_ok env),
    (ddl_ok env); unfold_m; cbn; try reflexivity;
    unfold migrate_under;
    rewrite try_add_column_run; cbn;
    (destruct (add_column_under env "playbook" _) as [e1|s1] eqn:E1;
     [apply add_column_under_error in E1; subst e1; reflexivity|]);
    cbn; rewrite try_add_column_run; cbn;
    (destruct (add_column_under env "playbook_uuid" s1) as [e2|s2] eqn:E2;
     [apply add_column_under_error in E2; subst e2; reflexivity|]);
    cbn; rewrite try_add_column_run; cbn;
    (destruct (add_column_under env "module" s2) as [e3|s3] eqn:E3;
     [apply add_column_under_error in E3; subst e3; reflexivity|]);
    reflexivity.
Qed.

(** *** Status derivation *)

(** Claim C1.  A task-outcome signal that reaches the store appends exactly
    one entry, and the status stored in it is the one the specification's
    table gives: for kind ok, CHANGED when the payload's [changed] flag is
    true and OK otherwise; for kind failed, FAILED_IGNORED when
    ignore-errors is true and FAILED otherwise; UNREACHABLE for unreachable
    and SKIPPED for skipped. *)
Theorem C1_status_derivation
    (k : Kind) (io : IO) (r : TaskResult) (ign : bool) (st : State)
    (c : string) (tb : Store.Table) :
  db_connection (self st) = Some c ->
  store (world st) = Some tb ->
  insertable (Some tb) = true ->
  write_ok io = true ->
  exists row,
    stored_rows (world (snd (deliver (TaskOutcome k io r ign) st))) =
      stored_rows (world st) ++ [row] /\
    Store.status row =
      Some match k with
           | ok => if changed_flag r then "CHANGED" else "OK"
           | failed => if ign then "FAILED_IGNORED" else "FAILED"
           | unreachable => "UNREACHABLE"
           | skipped => "SKIPPED"
           end.
Proof.
  intros Hc Hs Hi Hw. rewrite deliver_task_outcome.
  rewrite (_log_result_written _ _ _ _ _ _ Hc Hs Hi Hw).
  eexists. split.
  - unfold stored_rows, with_store. cbn. rewrite Hs. reflexivity.
  - cbn. destruct k; reflexivity.
Qed.

(** *** Serialization failure *)

(** Claim C6.  When serializing the result payload raises, the callback
    still returns normally, and the entry it writes (when the recorder is
    connected and the store takes the write) carries the fixed placeholder
    text in its result field. *)
Theorem C6_serialization_failure
    (k : Kind) (io : IO) (r : TaskResult) (ign : bool) (st : State)
    (e : Py.PyExn) :
  dumps r = inl e ->
  fst (deliver (TaskOutcome k io r ign) st) = inr tt /\
  forall (c : string) (tb : Store.Table),
    db_connection (self st) = Some c ->
    store (world st) = Some tb ->
    insertable (Some tb) = true ->
    write_ok io = true ->
    exists row,
      stored_rows (world (snd (deliver (TaskOutcome k io r ign) st))) =
        stored_rows (world st) ++ [row] /\
      Store.result row = Some "Could not serialize result".
Proof.
  intros Hd. rewrite deliver_task_outcome. split.
  - apply _log_result_returns.
  - intros c tb Hc Hs Hi Hw.
    rewrite (_log_result_written _ _ _ _ _ _ Hc Hs Hi Hw).
    eexists. split.
    + unfold stored_rows, with_store. cbn. rewrite Hs. reflexivity.
    + cbn. unfold stored_json. rewrite Hd. reflexivity.
Qed.

(** *** A recorder without connection *)

Lemma deliver_disabled (sg : Signal) (st : State) :
  db_connection (self st) = None ->
  exists st',
    deliver sg st = (inr tt, st') /\
    world st' = world st /\
    db_connection (self st') = None /\
    _display (self st') = _display (self st).
Proof.
  intros H. destruct sg as [f u|k io r ign].
  - cbn [deliver]. unfold v2_playbook_on_start. unfold_m.
    destruct u; cbn; eexists; (split; [reflexivity|]); cbn; auto.
  - rewrite deliver_task_outcome, (_log_result_disabled _ _ _ _ H).
    exists st. auto.
Qed.

Lemma deliver_all_disabled (sgs : list Signal) (st : State) :
  db_connection (self st) = None ->
  exists st',
    deliver_all sgs st = (inr tt, st') /\
    world st' = world st /\
    db_connection (self st') = None /\
    _display (self st') = _display (self st).
Proof.
  revert st. induction sgs as [|sg rest IH]; intros st H.
  - exists st. cbn. auto.
  - destruct (deliver_disabled sg st H) as (st1 & E1 & W1 & C1 & D1).
    destruct (IH st1 C1) as (st2 & E2 & W2 & C2 & D2).
    exists st2. cbn [deliver_all]. unfold bind. rewrite E1, E2.
    repeat split; congruence.
Qed.

(** Claim C7.  When the directory of the database is missing and creating it
    fails, the process goes on without a connection: whatever signals
    follow, every callback returns normally, the world (and so the store)
    is exactly as the process found it, and nothing is reported beyond the
    one warning of the initialization. *)
Theorem C7_disabled_after_mkdir_failure
    (env : Env) (w : World) (sgs : list Signal) :
  Py.truthy_str (db_dir env) = true ->
  dir_exists w = false ->
  makedirs_ok env = false ->
  exists st,
    process env sgs w = (inr tt, st) /\
    world st = w /\
    db_connection (self st) = None /\
    _display (self st) = [CouldNotCreateDirectory (db_dir env) Py.OSError].
Proof.
  intros Hd He Hm. unfold process, __init__.
  rewrite _initialize_db_run. cbn [world self dir_exists].
  rewrite Hd, He, Hm. cbn [andb negb].
  match goal with
  | |- context [deliver_all sgs ?s0] =>
      destruct (deliver_all_disabled sgs s0 eq_refl) as (st & E & W & C & D)
  end.
  exists st. rewrite E. cbn in W, D. auto.
Qed.

(** *** Run-scoped name and identifier *)

Lemma deliver_run_fields (sg : Signal) (st : State) :
  playbook_uuid (self (snd (deliver sg st))) =
    run_uuid (playbook_uuid (self st)) [sg] /\
  playbook_name (self (snd (deliver sg st))) =
    run_name (playbook_name (self st)) [sg] /\
  fst (deliver sg st) = inr tt.
Proof.
  destruct sg as [f u|k io r ign].
  - cbn [deliver]. unfold v2_playbook_on_start. unfold_m.
    destruct u; cbn; auto.
  - rewrite deliver_task_outcome. split; [|split].
    + cbn [run_uuid]. unfold _log_result, json_dumps, execute_insert_and_commit.
      unfold_m. destruct (db_connection (self st)); [|reflexivity].
      destruct (dumps r); cbn; destruct (write_ok io); cbn; try reflexivity;
        match goal with
        | |- context [Store.insert ?a ?b ?c ?d ?e ?f ?g ?h ?s] =>
            destruct (Store.insert a b c d e f g h s) as [x|s'] eqn:E;
            [apply insert_error in E; subst x|]; reflexivity
        end.
    + cbn [run_name]. unfold _log_result, json_dumps, execute_insert_and_commit.
      unfold_m. destruct (db_connection (self st)); [|reflexivity].
      destruct (dumps r); cbn; destruct (write_ok io); cbn; try reflexivity;
        match goal with
        | |- context [Store.insert ?a ?b ?c ?d ?e ?f ?g ?h ?s] =>
            destruct (Store.insert a b c d e f g h s) as [x|s'] eqn:E;
            [apply insert_error in E; subst x|]; reflexivity
        end.
    + apply _log_result_returns.
Qed.

Lemma deliver_all_run_fields (sgs : list Signal) (st : State) :
  playbook_uuid (self (snd (deliver_all sgs st))) =
    run_uuid (playbook_uuid (self st)) sgs /\
  playbook_name (self (snd (deliver_all sgs st))) =
    run_name (playbook_name (self st)) sgs /\
  fst (deliver_all sgs st) = inr tt.
Proof.
  revert st. induction sgs as [|sg rest IH]; intros st.
  - cbn. auto.
  - destruct (deliver_run_fields sg st) as (U & N & R).
    cbn [deliver_all]. unfold bind.
    destruct (deliver sg st) as [[e|[]] st1] eqn:E; cbn in U, N, R; [discriminate|].
    destruct (IH st1) as (U' & N' & R').
    rewrite U', N', R', U, N. repeat split.
    + destruct sg as [f [u|]|]; reflexivity.
    + destruct sg as [f u|]; reflexivity.
Qed.

Lemma deliver_all_app (a b : list Signal) (st : State) :
  deliver_all (a ++ b) st =
  match deliver_all a st with
  | (inl e, st') => (inl e, st')
  | (inr _, st') => deliver_all b st'
  end.
Proof.
  revert st. induction a as [|sg a IH]; intros st.
  - reflexivity.
  - cbn [app deliver_all]. unfold bind. destruct (deliver sg st) as [[e|u] st1].
    + reflexivity.
    + apply IH.
Qed.

Lemma _initialize_db_run_fields (env : Env) (st : State) :
  playbook_uuid (self (snd (_initialize_db env st))) = playbook_uuid (self st) /\
  playbook_name (self (snd (_initialize_db env st))) = playbook_name (self st) /\
  fst (_initialize_db env st) = inr tt.
Proof.
  rewrite _initialize_db_run. cbv zeta.
  destruct (_ && negb (makedirs_ok env))%bool; [cbn; auto|].
  destruct (negb (connect_ok env)); [cbn; auto|].
  destruct (negb (ddl_ok env)); [cbn; auto|].
  destruct (migrate_under env _) as [s' [e|]]; cbn; auto.
Qed.

(** Claim C10.  A run-start signal without run identifier updates the run
    name to the base name of its file and leaves the identifier as it was.
    So an entry written after the signals [sgs] of a process is attached to
    the identifier of the most recent run-start signal of [sgs] that
    carried one (or to "N/A" when none did) and to the base file name of
    the most recent run-start signal (or to "Ad-Hoc"). *)
Theorem C10_run_uuid_kept
    (env : Env) (w : World) (sgs : list Signal)
    (k : Kind) (io : IO) (r : TaskResult) (ign : bool)
    (st : State) (c : string) (tb : Store.Table) :
  process env sgs w = (inr tt, st) ->
  db_connection (self st) = Some c ->
  store (world st) = Some tb ->
  insertable (Some tb) = true ->
  write_ok io = true ->
  (forall (f : string) (st0 : State),
     playbook_uuid (self (snd (deliver (RunStart f None) st0))) =
       playbook_uuid (self st0) /\
     playbook_name (self (snd (deliver (RunStart f None) st0))) =
       Py.basename f) /\
  exists row,
    stored_rows (world (snd (process env (sgs ++ [TaskOutcome k io r ign]) w))) =
      stored_rows (world st) ++ [row] /\
    Store.playbook_uuid row = Some (run_uuid "N/A" sgs) /\
    Store.playbook row = Some (run_name "Ad-Hoc" sgs).
Proof.
  intros Hp Hc Hs Hi Hw. split.
  - intros f st0. destruct (deliver_run_fields (RunStart f None) st0) as (U & N & _).
    auto.
  - unfold process, __init__ in *.
    destruct (_initialize_db_run_fields env
                (mkState w (mkCallback None "Ad-Hoc" "N/A" []))) as (U0 & N0 & R0).
    destruct (_initialize_db env _) as [[e|[]] st0]; cbn in U0, N0, R0; [discriminate|].
    destruct (deliver_all_run_fields sgs st0) as (U1 & N1 & _).
    rewrite deliver_all_app, Hp. rewrite Hp in U1, N1. cbn [snd] in U1, N1.
    cbn [deliver_all]. unfold bind at 1.
    rewrite deliver_task_outcome, (_log_result_written _ _ _ _ _ _ Hc Hs Hi Hw).
    eexists. split; [|split].
    + cbn. unfold stored_rows. cbn. rewrite Hs. reflexivity.
    + cbn. congruence.
    + cbn. congruence.
Qed.

(** *** Schema initialization *)

Lemma directory_ready_proceeds (env : Env) (w : World) :
  directory_ready env w = true ->
  ((Py.truthy_str (db_dir env) && negb (dir_exists w))
   && negb (makedirs_ok env))%bool = false.
Proof.
  unfold directory_ready.
  destruct (Py.truthy_str (db_dir env) && negb (dir_exists w))%bool,
    (makedirs_ok env); cbn; congruence.
Qed.

(** On a table that has the column, a guarded [ALTER TABLE] leaves the
    store as it is, whatever the database opposes. *)
Lemma add_column_under_present (env : Env) (c : string) (tb : Store.Table) :
  Store.has_column c tb = true ->
  add_column_under env c (Some tb) = inr (Some tb) \/
  add_column_under env c (Some tb) = inl Py.sqlite3_DatabaseError.
Proof.
  intros H. unfold add_column_under, Store.alter_table_add_column. rewrite H.
  destruct (alter_fault env c); auto.
Qed.

Lemma migrate_under_migrated (env : Env) (s : Store.t) :
  migrated s = true ->
  fst (migrate_under env s) = s /\
  (alters_guarded env = true -> migrate_under env s = (s, None)).
Proof.
  destruct s as [tb|]; [|discriminate]. cbn [migrated].
  intros H. apply andb_prop in H. destruct H as [H Hm].
  apply andb_prop in H. destruct H as [Hp Hu].
  unfold migrate_under, alters_guarded. cbn [forallb].
  destruct (add_column_under_present env "playbook" tb Hp) as [E1|E1];
    destruct (add_column_under_present env "playbook_uuid" tb Hu) as [E2|E2];
    destruct (add_column_under_present env "module" tb Hm) as [E3|E3];
    rewrite ?E1, ?E2, ?E3; (split; [reflexivity|]);
    unfold add_column_under in *;
    destruct (alter_fault env "playbook"), (alter_fault env "playbook_uuid"),
      (alter_fault env "module"); cbn; try discriminate; reflexivity.
Qed.

Lemma __init___migrated (env : Env) (w : World) :
  migrated (store w) = true ->
  fst (__init__ env w) = inr tt /\ store (world (snd (__init__ env w))) = store w.
Proof.
  intros H. unfold __init__. rewrite _initialize_db_run. cbv zeta.
  cbn [world self].
  destruct (_ && negb (makedirs_ok env))%bool; [cbn; auto|].
  destruct (negb (connect_ok env)); [cbn; auto|].
  destruct (negb (ddl_ok env)); [cbn; auto|].
  assert (Hc : Store.create_table_if_not_exists (store w) = store w)
    by (destruct (store w); [reflexivity|discriminate]).
  rewrite Hc. destruct (migrate_under_migrated env (store w) H) as [Hf _].
  destruct (migrate_under env (store w)) as [s' [e|]]; cbn in *; auto.
Qed.

(** Claim C5.  On a store whose table already has the columns of the
    migration step, instantiating the plugin any number of times, under any
    environments, completes without error each time and leaves the store
    (its column list and its rows) exactly as it was.  And where the
    directory is there, the connection opens and the statements meet
    nothing but the columns that exist, the initialization treats them as
    no-ops: it ends connected and reports no warning at all. *)
Theorem C5_initialization_idempotent (envs : list Env) (w : World) :
  migrated (store w) = true ->
  (exists w', initialize_each envs w = (inr tt, w') /\ store w' = store w) /\
  (forall env : Env,
     directory_ready env w = true ->
     connect_ok env = true ->
     ddl_ok env = true ->
     alters_guarded env = true ->
     exists st,
       __init__ env w = (inr tt, st) /\
       db_connection (self st) = Some (full_path env) /\
       _display (self st) = [] /\
       store (world st) = store w).
Proof.
  intros H. split.
  - revert w H. induction envs as [|env rest IH]; intros w H.
    + exists w. cbn. auto.
    + destruct (__init___migrated env w H) as (R & S).
      cbn [initialize_each].
      destruct (__init__ env w) as [[e|[]] st]; cbn in R, S; [discriminate|].
      destruct (IH (world st)) as (w' & E & S'); [now rewrite S|].
      exists w'. split; [exact E|congruence].
  - intros env Hd Hc Hl Hg. unfold __init__. rewrite _initialize_db_run. cbv zeta.
    cbn [world self]. rewrite (directory_ready_proceeds _ _ Hd), Hc, Hl.
    cbn [negb].
    assert (Hs : Store.create_table_if_not_exists (store w) = store w)
      by (destruct (store w); [reflexivity|discriminate]).
    rewrite Hs. destruct (migrate_under_migrated env (store w) H) as [_ Hm].
    rewrite (Hm Hg). eexists. split; [reflexivity|]. cbn. auto.
Qed.

(** Claim C8, as the program has it.  On a store with no table, where the
    directory is there, the connection opens and the [CREATE TABLE]
    statement succeeds, the initialization ends connected on a table with
    the nine columns id, timestamp, inventory_hostname, playbook,
    playbook_uuid, module, task_name, status, result, in this order, and no
    row.  This holds whatever the migration step meets, even when each of
    its [ALTER TABLE] statements is refused: the three columns come from
    the [CREATE TABLE] statement, and the migration step adds nothing. *)
Theorem C8_base_table_columns (env : Env) (w : World) :
  directory_ready env w = true ->
  connect_ok env = true ->
  ddl_ok env = true ->
  store w = None ->
  exists st,
    __init__ env w = (inr tt, st) /\
    db_connection (self st) = Some (full_path env) /\
    store (world st) =
      Some (Store.mkTable
              ["id"; "timestamp"; "inventory_hostname"; "playbook";
               "playbook_uuid"; "module"; "task_name"; "status"; "result"]
              [] 0).
Proof.
  intros Hd Hc Hl Hs. unfold __init__. rewrite _initialize_db_run. cbv zeta.
  cbn [world self]. rewrite (directory_ready_proceeds _ _ Hd), Hc, Hl, Hs.
  cbn [negb Store.create_table_if_not_exists].
  destruct (migrate_under_migrated env
              (Some (Store.mkTable Store.create_columns [] 0)) eq_refl) as [Hf _].
  destruct (migrate_under env _) as [s' [e|]]; cbn [fst] in Hf; subst s';
    eexists; (split; [reflexivity|]); cbn; auto.
Qed.

(** Claim C8, as stated, fails.  Were the base table created with the seven
    columns of the specification and playbook_uuid and module added by the
    migration step, a fresh database would end with these two columns
    last, and without them when the migration step is refused.  The
    initialization ends with neither column list. *)
Lemma C8_base_table_counterexample :
  option_map Store.columns (store (world (snd (__init__ example_env fresh_world))))
    <> Some (spec_base_columns ++ ["playbook_uuid"; "module"]) /\
  option_map Store.columns
    (store (world (snd (__init__ example_env_alters_locked fresh_world))))
    <> Some spec_base_columns.
Proof. split; vm_compute; discriminate. Qed.

(** *** Instances on concrete inputs *)

Lemma C1_status_derivation_witness :
  exists row,
    stored_rows (world (snd (deliver (TaskOutcome ok example_io example_result false)
                               example_state))) =
      stored_rows (world example_state) ++ [row] /\
    Store.status row = Some "CHANGED".
Proof.
  exact (C1_status_derivation ok example_io example_result false example_state
           "/var/cache/ansible_logs/logs.db" example_table
           eq_refl eq_refl eq_refl eq_refl).
Defined.

Lemma C6_serialization_failure_witness :
  fst (deliver (TaskOutcome ok example_io example_result false) example_state) = inr tt /\
  forall (c : string) (tb : Store.Table),
    db_connection (self example_state) = Some c ->
    store (world example_state) = Some tb ->
    insertable (Some tb) = true ->
    write_ok example_io = true ->
    exists row,
      stored_rows (world (snd (deliver (TaskOutcome ok example_io example_result false)
                                 example_state))) =
        stored_rows (world example_state) ++ [row] /\
      Store.result row = Some "Could not serialize result".
Proof.
  exact (C6_serialization_failure ok example_io example_result false example_state
           Py.TypeError eq_refl).
Defined.

Lemma C7_disabled_after_mkdir_failure_witness :
  exists st,
    process example_env_mkdir_fails
      [RunStart "/srv/site.yml" (Some "u1");
       TaskOutcome ok example_io example_result false;
       TaskOutcome failed example_io example_result true] fresh_world = (inr tt, st) /\
    world st = fresh_world /\
    db_connection (self st) = None /\
    _display (self st) =
      [CouldNotCreateDirectory (db_dir example_env_mkdir_fails) Py.OSError].
Proof.
  exact (C7_disabled_after_mkdir_failure example_env_mkdir_fails fresh_world _
           eq_refl eq_refl eq_refl).
Defined.

Lemma C10_run_uuid_kept_witness :
  (forall (f : string) (st0 : State),
     playbook_uuid (self (snd (deliver (RunStart f None) st0))) =
       playbook_uuid (self st0) /\
     playbook_name (self (snd (deliver (RunStart f None) st0))) =
       Py.basename f) /\
  exists row,
    stored_rows (world (snd (process example_env
        ([RunStart "/srv/site.yml" (Some "u1"); RunStart "/srv/db.yml" None]
         ++ [TaskOutcome skipped example_io example_result false]) fresh_world))) =
      stored_rows (world (snd (process example_env
        [RunStart "/srv/site.yml" (Some "u1"); RunStart "/srv/db.yml" None]
        fresh_world))) ++ [row] /\
    Store.playbook_uuid row = Some "u1" /\
    Store.playbook row = Some "db.yml".
Proof.
  exact (C10_run_uuid_kept example_env fresh_world
           [RunStart "/srv/site.yml" (Some "u1"); RunStart "/srv/db.yml" None]
           skipped example_io example_result false
           (snd (process example_env
                   [RunStart "/srv/site.yml" (Some "u1"); RunStart "/srv/db.yml" None]
                   fresh_world))
           "/var/cache/ansible_logs/logs.db" example_table
           eq_refl eq_refl eq_refl eq_refl eq_refl).
Defined.

Lemma C5_initialization_idempotent_witness :
  (exists w',
     initialize_each [example_env; example_env_mkdir_fails; example_env_alters_locked]
       (world example_state) = (inr tt, w') /\
     store w' = store (world example_state)) /\
  (forall env : Env,
     directory_ready env (world example_state) = true ->
     connect_ok env = true ->
     ddl_ok env = true ->
     alters_guarded env = true ->
     exists st,
       __init__ env (world example_state) = (inr tt, st) /\
       db_connection (self st) = Some (full_path env) /\
       _display (self st) = [] /\
       store (world st) = store (world example_state)).
Proof.
  exact (C5_initialization_idempotent
           [example_env; example_env_mkdir_fails; example_env_alters_locked]
           (world example_state) eq_refl).
Defined.

Lemma C8_base_table_columns_witness :
  exists st,
    __init__ example_env_alters_locked fresh_world = (inr tt, st) /\
    db_connection (self st) = Some (full_path example_env_alters_locked) /\
    store (world st) =
      Some (Store.mkTable
              ["id"; "timestamp"; "inventory_hostname"; "playbook";
               "playbook_uuid"; "module"; "task_name"; "status"; "result"]
              [] 0).
Proof.
  exact (C8_base_table_columns example_env_alters_locked fresh_world
           eq_refl eq_refl eq_refl eq_refl).
Defined.

End RecorderFacts.

(** * Properties of the query service *)

Module QueryFacts.

Import Store QueryService.
Local Open Scope list_scope.

(** *** Lists: sorting keeps the elements, pages tile the list *)

Lemma length_insert_by_id_desc (r : Row) (l : list Row) :
  List.length (Sql.insert_by_id_desc r l) = S (List.length l).
Proof.
  induction l as [|r' l IH]; cbn; [reflexivity|].
  destruct (id r' <=? id r); cbn; congruence.
Qed.

Lemma length_order_by_id_desc (l : list Row) :
  List.length (Sql.order_by_id_desc l) = List.length l.
Proof.
  induction l as [|r l IH]; cbn; [reflexivity|].
  now rewrite length_insert_by_id_desc, IH.
Qed.

(** Chunks of [n] elements taken at offsets [0], [n], [2n], ... give the
    list back once they reach its end. *)
Lemma concat_chunks {A : Type} (n k : nat) (l : list A) :
  (List.length l <= k * n)%nat ->
  List.concat (map (fun i => firstn n (skipn (i * n) l)) (seq 0 k)) = l.
Proof.
  revert l. induction k as [|k IH]; intros l H.
  - cbn in *. destruct l; [reflexivity|cbn in H; lia].
  - cbn [seq map List.concat]. rewrite <- seq_shift, map_map.
    cbn [Nat.mul skipn].
    rewrite (map_ext _ (fun i => firstn n (skipn (i * n) (skipn n l)))).
    + rewrite IH; [apply firstn_skipn|]. rewrite length_skipn. lia.
    + intros i. rewrite skipn_skipn. f_equal. f_equal. lia.
Qed.

Lemma drop_skipn {A : Type} (k : Z) (l : list A) :
  Sql.drop k l = skipn (Z.to_nat k) l.
Proof.
  revert k. induction l as [|x l IH]; intros k; cbn [Sql.drop].
  - now rewrite skipn_nil.
  - destruct (0 <? k) eqn:E.
    + apply Z.ltb_lt in E. rewrite IH.
      replace (Z.to_nat k) with (S (Z.to_nat (k - 1))) by lia. reflexivity.
    + apply Z.ltb_ge in E. now replace (Z.to_nat k) with 0%nat by lia.
Qed.

Lemma take_firstn {A : Type} (n : Z) (l : list A) :
  Sql.take n l = firstn (Z.to_nat n) l.
Proof.
  revert n. induction l as [|x l IH]; intros n; cbn [Sql.take].
  - now rewrite firstn_nil.
  - destruct (0 <? n) eqn:E.
    + apply Z.ltb_lt in E. rewrite IH.
      replace (Z.to_nat n) with (S (Z.to_nat (n - 1))) by lia. reflexivity.
    + apply Z.ltb_ge in E. now replace (Z.to_nat n) with 0%nat by lia.
Qed.

(** [LIMIT n OFFSET k] in terms of the list functions. *)
Lemma limit_offset_lists {A : Type} (n k : Z) (l : list A) :
  Sql.limit_offset n k l =
  if n <? 0 then skipn (Z.to_nat k) l
  else firstn (Z.to_nat n) (skipn (Z.to_nat k) l).
Proof. unfold Sql.limit_offset. now rewrite take_firstn, drop_skipn. Qed.

Lemma limit_offset_page {A : Type} (i : nat) (l : list A) :
  Sql.limit_offset PER_PAGE ((Z.of_nat (S i) - 1) * PER_PAGE) l =
  firstn 100 (skipn (i * 100) l).
Proof.
  rewrite limit_offset_lists. unfold PER_PAGE. cbn [Z.ltb Z.compare].
  replace (Z.to_nat ((Z.of_nat (S i) - 1) * 100)) with (i * 100)%nat by lia.
  reflexivity.
Qed.

Lemma limit_offset_beyond {A : Type} (p : Z) (l : list A) :
  Z.of_nat (List.length l) <= (p - 1) * PER_PAGE ->
  Sql.limit_offset PER_PAGE ((p - 1) * PER_PAGE) l = [].
Proof.
  intros H. rewrite limit_offset_lists. unfold PER_PAGE in *. cbn [Z.ltb Z.compare].
  rewrite skipn_all2 by lia. apply firstn_nil.
Qed.

(** *** The ceiling *)

Lemma math_ceil_div_spec (a : Z) :
  PER_PAGE * (math_ceil_div a PER_PAGE - 1) < a <= PER_PAGE * math_ceil_div a PER_PAGE.
Proof.
  unfold math_ceil_div, PER_PAGE.
  pose proof (Z.div_mod (- a) 100 ltac:(lia)).
  pose proof (Z.mod_pos_bound (- a) 100 ltac:(lia)). lia.
Qed.

(** *** [api_logs] on a table with the persisted schema *)

Lemma prepared_and_if (b : bool) (c : Sql.Cond) (w : list Sql.Cond) (tb : Table) :
  Sql.prepared (and_if b c w) tb =
  (Sql.prepared w tb && (negb b || has_column (Sql.names_column c) tb))%bool.
Proof.
  unfold and_if, Sql.prepared. destruct b; cbn [negb orb].
  - rewrite forallb_app. cbn. now rewrite andb_true_r.
  - now rewrite andb_true_r.
Qed.

Lemma length_string_app (a b : string) :
  String.length (a ++ b)%string = (String.length a + String.length b)%nat.
Proof. induction a as [|c a IH]; cbn; congruence. Qed.

Lemma forall_and_if (P : Sql.Cond -> Prop) (b : bool) (c : Sql.Cond)
    (w : list Sql.Cond) :
  Forall P w -> (b = true -> P c) -> Forall P (and_if b c w).
Proof.
  intros Hw Hc. unfold and_if. destruct b; [|exact Hw].
  apply Forall_app. split; [exact Hw|]. constructor; [now apply Hc|constructor].
Qed.

Lemma pattern_accepted (column : string) (arg : option string) :
  pattern_ok arg = true ->
  Sql.too_complex
    (Sql.LikeParam column ("%" ++ args_get arg EmptyString ++ "%")) = false.
Proof.
  unfold pattern_ok, Sql.too_complex. intros H. apply Z.leb_le in H.
  apply Z.ltb_ge. cbn [append String.length].
  rewrite length_string_app. cbn [String.length]. lia.
Qed.

(** No condition built from a request whose patterns are within the limit
    is refused. *)
Lemma build_where_accepted (rq : Request) :
  like_patterns_ok rq = true ->
  Forall (fun c => Sql.too_complex c = false) (build_where rq).
Proof.
  unfold like_patterns_ok. intros H.
  apply andb_prop in H. destruct H as [H Ht].
  apply andb_prop in H. destruct H as [H Hm].
  apply andb_prop in H. destruct H as [Hh Hp].
  unfold build_where. cbv zeta.
  repeat (apply forall_and_if; [|intros _; try reflexivity; now apply pattern_accepted]).
  constructor.
Qed.

Lemma not_refused (where_clause : list Sql.Cond) (rs : list Row) :
  Forall (fun c => Sql.too_complex c = false) where_clause ->
  existsb (Sql.refused_on where_clause) rs = false.
Proof.
  intros H. induction rs as [|r rs IH]; [reflexivity|]. cbn [existsb].
  rewrite IH, orb_false_r. clear IH.
  induction H as [|c w Hc Hw IH]; [reflexivity|]. cbn [Sql.refused_on].
  rewrite Hc. now destruct (Sql.holds c r).
Qed.

Lemma like_patterns_ok_set_page (rq : Request) (p : Z) :
  like_patterns_ok (set_page rq p) = like_patterns_ok rq.
Proof. reflexivity. Qed.

Section PersistedSchema.

Variable tb : Table.
Hypothesis schema : queryable (Some tb) = true.

Lemma prepared_build_where (rq : Request) :
  Sql.prepared (build_where rq) tb = true /\ has_column "id" tb = true.
Proof.
  pose proof schema as H. unfold queryable, create_columns in H. cbn [forallb] in H.
  repeat (apply andb_prop in H; let H1 := fresh "C" in destruct H as [H1 H]).
  split; [|assumption].
  unfold build_where. cbv zeta. rewrite !prepared_and_if.
  cbn [Sql.names_column Sql.prepared forallb].
  repeat match goal with
         | Hc : has_column _ tb = true |- _ => rewrite Hc; clear Hc
         end.
  now rewrite !orb_true_r.
Qed.

(** What [api_logs] answers when the patterns are within the limit and the
    offset of the page can be bound. *)
Lemma api_logs_run (rq : Request) :
  like_patterns_ok rq = true ->
  page_in_range (page_of rq) = true ->
  api_logs (@Some Store.t (Some tb)) rq =
  inr (Json (mkLogsBody
               (map (entry_of (columns tb))
                  (Sql.limit_offset PER_PAGE ((page_of rq - 1) * PER_PAGE)
                     (Sql.order_by_id_desc (matching (Some tb) rq))))
               (page_of rq)
               (math_ceil_div (Z.of_nat (List.length (matching (Some tb) rq))) PER_PAGE)
               (Z.of_nat (List.length (matching (Some tb) rq))))).
Proof.
  intros Hl Hr. destruct (prepared_build_where rq) as [Hp Hi].
  pose proof (not_refused _ (rows tb) (build_where_accepted rq Hl)) as Hn.
  unfold page_in_range in Hr.
  unfold api_logs, Sql.select_count, Sql.select_page, matching.
  fold (page_of rq). rewrite Hp, Hi, Hn, Hr. reflexivity.
Qed.

(** A page whose offset cannot be bound is answered with an exception. *)
Lemma api_logs_overflow (rq : Request) :
  like_patterns_ok rq = true ->
  page_in_range (page_of rq) = false ->
  api_logs (@Some Store.t (Some tb)) rq = inl Py.OverflowError.
Proof.
  intros Hl Hr. destruct (prepared_build_where rq) as [Hp Hi].
  pose proof (not_refused _ (rows tb) (build_where_accepted rq Hl)) as Hn.
  unfold page_in_range in Hr.
  unfold api_logs, Sql.select_count, Sql.select_page.
  fold (page_of rq). rewrite Hp, Hi, Hn, Hr. reflexivity.
Qed.

Lemma page_data_run (rq : Request) (p : Z) :
  like_patterns_ok rq = true ->
  page_in_range p = true ->
  page_data (@Some Store.t (Some tb)) rq p =
  map (entry_of (columns tb))
    (Sql.limit_offset PER_PAGE ((p - 1) * PER_PAGE)
       (Sql.order_by_id_desc (matching (Some tb) rq))).
Proof.
  intros Hl Hr. unfold page_data. rewrite api_logs_run; [reflexivity|exact Hl|exact Hr].
Qed.

(** Pages 1 to [n] are the whole ordered result once [n] pages cover it. *)
Lemma pages_concatenated_all (rq : Request) (n : nat) :
  like_patterns_ok rq = true ->
  (forall i, (i < n)%nat -> page_in_range (Z.of_nat (S i)) = true) ->
  (List.length (matching (Some tb) rq) <= n * 100)%nat ->
  pages_concatenated (@Some Store.t (Some tb)) rq n =
  map (entry_of (columns tb)) (Sql.order_by_id_desc (matching (Some tb) rq)).
Proof.
  intros Hl Hr Hn. unfold pages_concatenated.
  rewrite <- seq_shift, map_map.
  rewrite (map_ext_in _ (fun i => map (entry_of (columns tb))
                                    (firstn 100 (skipn (i * 100)
                                       (Sql.order_by_id_desc (matching (Some tb) rq)))))).
  - rewrite <- (map_map (fun i => firstn 100 (skipn (i * 100) _))
                        (map (entry_of (columns tb)))).
    rewrite <- concat_map, concat_chunks; [reflexivity|].
    now rewrite length_order_by_id_desc.
  - intros i Hi. apply in_seq in Hi.
    rewrite page_data_run; [now rewrite limit_offset_page|exact Hl|].
    apply Hr. lia.
Qed.

End PersistedSchema.

Lemma matching_length (tb : Table) (rq : Request) :
  (List.length (matching (Some tb) rq) <= List.length (rows tb))%nat.
Proof. unfold matching. apply filter_length_le. Qed.

(** Claim C2.  On a table with the persisted schema, for every request
    whose filters the database accepts and whose page can be asked for,
    [api_logs] answers with a body whose [total_records] and whose page are
    both computed from the rows that pass the one clause built from the
    request's filters; every page from 1 to [total_pages] is answered with
    the same [total_records]; and [total_records] is the number of entries
    one gets by putting these pages one after the other. *)
Theorem C2_total_records_matches_pages (s : Store.t) (rq : Request) :
  queryable s = true ->
  rows_in_range s = true ->
  like_patterns_ok rq = true ->
  page_in_range (page_of rq) = true ->
  exists body keys,
    api_logs (Some s) rq = inr (Json body) /\
    total_records body = Z.of_nat (List.length (matching s rq)) /\
    data body =
      map (entry_of keys)
        (Sql.limit_offset PER_PAGE ((page_of rq - 1) * PER_PAGE)
           (Sql.order_by_id_desc (matching s rq))) /\
    (forall p,
       1 <= p <= total_pages body ->
       exists body',
         api_logs (Some s) (set_page rq p) = inr (Json body') /\
         total_records body' = total_records body) /\
    total_records body =
      Z.of_nat (List.length
                  (pages_concatenated (Some s) rq (Z.to_nat (total_pages body)))).
Proof.
  intros H Hrows Hl Hr. destruct s as [tb|]; [|discriminate].
  eexists. exists (columns tb).
  split; [exact (api_logs_run _ H _ Hl Hr)|]. cbn [total_records data total_pages].
  split; [reflexivity|]. split; [reflexivity|].
  pose proof (math_ceil_div_spec (Z.of_nat (List.length (matching (Some tb) rq)))) as B.
  pose proof (matching_length tb rq) as Hm.
  cbn [rows_in_range] in Hrows. apply Z.leb_le in Hrows.
  assert (Hpages : forall p,
             1 <= p <= math_ceil_div
                         (Z.of_nat (List.length (matching (Some tb) rq))) PER_PAGE ->
             page_in_range p = true).
  { intros p Hp. unfold page_in_range, Sql.in_int64, PER_PAGE in *.
    apply andb_true_intro. split; apply Z.leb_le; lia. }
  split.
  - intros p Hp. eexists.
    rewrite (api_logs_run _ H (set_page rq p) Hl (Hpages p Hp)).
    split; reflexivity.
  - rewrite (pages_concatenated_all _ H _ _ Hl).
    + now rewrite length_map, length_order_by_id_desc.
    + intros i Hi. apply Hpages. lia.
    + unfold PER_PAGE in *. lia.
Qed.

(** Claim C3, as the program has it.  On a table with the persisted
    schema, a request whose filters match R rows (the database accepting
    them, and the page being one that can be asked for) is answered with
    [total_records = R] and [total_pages = ceil(R/100)], the least number
    of pages of 100 that hold R entries; asking for a page beyond
    [total_pages] whose offset fits a 64-bit integer is answered with a
    body that has no entry and the same totals; and when R is 0 the answer
    is a body with no entry, [total_pages = 0] and [total_records = 0]. *)
Theorem C3_pagination (s : Store.t) (rq : Request) :
  queryable s = true ->
  like_patterns_ok rq = true ->
  page_in_range (page_of rq) = true ->
  let R := Z.of_nat (List.length (matching s rq)) in
  exists body,
    api_logs (Some s) rq = inr (Json body) /\
    total_records body = R /\
    total_pages body = math_ceil_div R PER_PAGE /\
    100 * (total_pages body - 1) < R <= 100 * total_pages body /\
    (forall p : Z,
       total_pages body < p ->
       page_in_range p = true ->
       exists body',
         api_logs (Some s) (set_page rq p) = inr (Json body') /\
         data body' = [] /\
         total_pages body' = total_pages body /\
         total_records body' = R) /\
    (R = 0 -> data body = [] /\ total_pages body = 0 /\ total_records body = 0).
Proof.
  intros H Hl Hr R. destruct s as [tb|]; [|discriminate].
  eexists. split; [exact (api_logs_run _ H _ Hl Hr)|].
  cbn [total_records data total_pages]. fold R.
  pose proof (math_ceil_div_spec R) as B. unfold PER_PAGE in B.
  split; [reflexivity|]. split; [reflexivity|]. split; [exact B|]. split.
  - intros p Hp Hrp. eexists.
    rewrite (api_logs_run _ H (set_page rq p) Hl Hrp). split; [reflexivity|].
    cbn [total_records data total_pages]. split; [|split; reflexivity].
    replace (page_of (set_page rq p)) with p by reflexivity.
    change (matching (Some tb) (set_page rq p)) with (matching (Some tb) rq).
    rewrite limit_offset_beyond; [reflexivity|].
    rewrite length_order_by_id_desc. fold R. unfold PER_PAGE in *. lia.
  - intros HR. split; [|split].
    + subst R. destruct (matching (Some tb) rq); [|cbn in HR; lia].
      reflexivity.
    + rewrite HR. reflexivity.
    + exact HR.
Qed.

(** Claim C3, as stated for every page beyond [total_pages], fails: the
    offset of page 92233720368547760 is 2^63 - 8 + 100 - 100 + 8, which
    cannot be bound, and the request ends with an exception instead of a
    body without entries. *)
Lemma C3_page_beyond_counterexample :
  ~ exists body,
      api_logs (Some example_store) (set_page no_args 92233720368547760) =
        inr (Json body) /\
      data body = [].
Proof.
  intros (body & E & _). vm_compute in E. discriminate.
Qed.

(** *** Zero padding of the date filters *)

Lemma len_repeat_zero (n : nat) : Py.len (Py.repeat_char "0" n) = n.
Proof.
  induction n as [|n IH]; [reflexivity|]. cbn [Py.repeat_char Py.len].
  change (Py.is_continuation "0") with false. now rewrite IH.
Qed.

Lemma len_string_app (a b : string) :
  Py.len (a ++ b)%string = (Py.len a + Py.len b)%nat.
Proof.
  induction a as [|c a IH]; cbn [append Py.len]; [reflexivity|].
  destruct (Py.is_continuation c); rewrite IH; reflexivity.
Qed.

(** [zfill] reaches the width it is asked for. *)
Lemma length_zfill (s : string) (w : nat) :
  (w <= Py.len (Py.zfill s w))%nat.
Proof.
  unfold Py.zfill. destruct (Nat.leb w (Py.len s)) eqn:E.
  - now apply Nat.leb_le.
  - apply Nat.leb_gt in E. destruct s as [|c rest].
    + rewrite len_repeat_zero. cbn. lia.
    + destruct (Ascii.eqb c "+" || Ascii.eqb c "-")%bool eqn:Es.
      * assert (Hc : Py.is_continuation c = false).
        { apply orb_prop in Es. destruct Es as [Es|Es];
            apply Ascii.eqb_eq in Es; subst c; reflexivity. }
        cbn [Py.len] in *. rewrite Hc in *.
        rewrite len_string_app, len_repeat_zero. lia.
      * rewrite len_string_app, len_repeat_zero. lia.
Qed.

Lemma zfill_idempotent (s : string) (w : nat) :
  Py.zfill (Py.zfill s w) w = Py.zfill s w.
Proof.
  unfold Py.zfill at 1.
  now rewrite (proj2 (Nat.leb_le _ _) (length_zfill s w)).
Qed.

Lemma truthy_zfill_2 (s : string) : Py.truthy_str (Py.zfill s 2) = true.
Proof.
  pose proof (length_zfill s 2) as H.
  destruct (Py.zfill s 2); [cbn in H; lia|reflexivity].
Qed.

Lemma api_logs_ext (db : option Store.t) (rq1 rq2 : Request) :
  build_where rq1 = build_where rq2 ->
  arg_page rq1 = arg_page rq2 ->
  api_logs db rq1 = api_logs db rq2.
Proof. unfold api_logs. intros -> ->. reflexivity. Qed.

(** Claim C9, for a filter that is supplied.  For every store and every
    non-empty [month], [day] or [hour] value [v], [api_logs] answers the
    request with [v] exactly as it answers the request with [v] padded with
    zeros to two characters. *)
Theorem C9_zero_padded_filters
    (db : option Store.t) (rq : Request) (v : string) :
  v <> EmptyString ->
  api_logs db (set_month rq (Some v)) =
    api_logs db (set_month rq (Some (Py.zfill v 2))) /\
  api_logs db (set_day rq (Some v)) =
    api_logs db (set_day rq (Some (Py.zfill v 2))) /\
  api_logs db (set_hour rq (Some v)) =
    api_logs db (set_hour rq (Some (Py.zfill v 2))).
Proof.
  intros Hv.
  assert (Ht : Py.truthy_str v = true) by (destruct v; [contradiction|reflexivity]).
  repeat split; apply api_logs_ext; try reflexivity;
    unfold build_where, set_month, set_day, set_hour;
    cbn [arg_host arg_playbook arg_playbook_uuid arg_module arg_task arg_status
         arg_year arg_month arg_day arg_hour args_get];
    rewrite zfill_idempotent, truthy_zfill_2, Ht; reflexivity.
Qed.

(** Claim C9, as stated for every value, fails at the empty value: an empty
    [hour] is no filter at all, while its padded form "00" keeps only the
    entries of hour 00. *)
Lemma C9_empty_value_counterexample :
  api_logs (Some example_store) (set_hour no_args (Some EmptyString)) <>
  api_logs (Some example_store) (set_hour no_args (Some (Py.zfill EmptyString 2))).
Proof. vm_compute. discriminate. Qed.

(** *** The byte order on texts *)

Lemma ascii_compare_refl (c : ascii) : Ascii.compare c c = Eq.
Proof. unfold Ascii.compare. apply N.compare_refl. Qed.

Lemma string_compare_refl (s : string) : String.compare s s = Eq.
Proof.
  induction s as [|c s IH]; cbn; [reflexivity|].
  now rewrite ascii_compare_refl.
Qed.

Lemma string_compare_lt_trans (a b c : string) :
  String.compare a b = Lt -> String.compare b c = Lt -> String.compare a c = Lt.
Proof.
  revert b c. induction a as [|x a IH]; intros [|y b] [|z c]; cbn;
    try congruence.
  destruct (Ascii.compare x y) eqn:E1; destruct (Ascii.compare y z) eqn:E2;
    try discriminate.
  - apply Ascii.compare_eq_iff in E1, E2. subst.
    rewrite ascii_compare_refl. apply IH.
  - apply Ascii.compare_eq_iff in E1. subst. now rewrite E2.
  - apply Ascii.compare_eq_iff in E2. subst. now rewrite E1.
  - intros _ _. unfold Ascii.compare in *.
    rewrite N.compare_lt_iff in E1, E2.
    now rewrite (proj2 (N.compare_lt_iff _ _) (N.lt_trans _ _ _ E1 E2)).
Qed.

Lemma leb_refl (s : string) : String.leb s s = true.
Proof. unfold String.leb. now rewrite string_compare_refl. Qed.

Lemma leb_trans (a b c : string) :
  String.leb a b = true -> String.leb b c = true -> String.leb a c = true.
Proof.
  unfold String.leb.
  destruct (String.compare a b) eqn:E1; [| |discriminate];
    destruct (String.compare b c) eqn:E2; try discriminate; intros _ _.
  - apply String.compare_eq_iff in E1, E2. subst. now rewrite string_compare_refl.
  - apply String.compare_eq_iff in E1. subst. now rewrite E2.
  - apply String.compare_eq_iff in E2. subst. now rewrite E1.
  - now rewrite (string_compare_lt_trans _ _ _ E1 E2).
Qed.

Lemma ltb_leb (a b : string) : String.ltb a b = true -> String.leb a b = true.
Proof. unfold String.ltb, String.leb. now destruct (String.compare a b). Qed.

Lemma not_ltb_leb (a b : string) : String.ltb a b = false -> String.leb b a = true.
Proof.
  unfold String.ltb, String.leb. rewrite (String.compare_antisym b a).
  now destruct (String.compare a b).
Qed.

Lemma not_leb_leb (a b : string) : String.leb a b = false -> String.leb b a = true.
Proof.
  unfold String.leb. rewrite (String.compare_antisym b a).
  now destruct (String.compare a b).
Qed.

Create HintDb text_order.
#[local] Hint Resolve leb_refl ltb_leb not_ltb_leb not_leb_leb : text_order.

(** *** Minimum and maximum of a group *)

Lemma min_row_In (best : Row) (rs : list Row) : In (min_row best rs) (best :: rs).
Proof.
  revert best. induction rs as [|r rest IH]; intros best; cbn [min_row].
  - now left.
  - specialize (IH (if String.ltb (timestamp_text r) (timestamp_text best)
                    then r else best)).
    destruct (String.ltb _ _); cbn in *; intuition.
Qed.

Lemma min_row_least (best : Row) (rs : list Row) (r : Row) :
  In r (best :: rs) ->
  String.leb (timestamp_text (min_row best rs)) (timestamp_text r) = true.
Proof.
  revert best r. induction rs as [|r0 rest IH]; intros best r Hin; cbn [min_row].
  - destruct Hin as [<-|[]]. apply leb_refl.
  - set (b := if String.ltb (timestamp_text r0) (timestamp_text best)
              then r0 else best).
    assert (Hb : String.leb (timestamp_text b) (timestamp_text best) = true
                 /\ String.leb (timestamp_text b) (timestamp_text r0) = true).
    { subst b. destruct (String.ltb _ _) eqn:E; split; auto with text_order. }
    destruct Hb as [Hb1 Hb2].
    pose proof (IH b b (or_introl eq_refl)) as Hm.
    destruct Hin as [<-|[<-|Hin]].
    + exact (leb_trans _ _ _ Hm Hb1).
    + exact (leb_trans _ _ _ Hm Hb2).
    + apply IH. now right.
Qed.

Lemma max_row_In (best : Row) (rs : list Row) : In (max_row best rs) (best :: rs).
Proof.
  revert best. induction rs as [|r rest IH]; intros best; cbn [max_row].
  - now left.
  - specialize (IH (if String.ltb (timestamp_text best) (timestamp_text r)
                    then r else best)).
    destruct (String.ltb _ _); cbn in *; intuition.
Qed.

Lemma max_row_greatest (best : Row) (rs : list Row) (r : Row) :
  In r (best :: rs) ->
  String.leb (timestamp_text r) (timestamp_text (max_row best rs)) = true.
Proof.
  revert best r. induction rs as [|r0 rest IH]; intros best r Hin; cbn [max_row].
  - destruct Hin as [<-|[]]. apply leb_refl.
  - set (b := if String.ltb (timestamp_text best) (timestamp_text r0)
              then r0 else best).
    assert (Hb : String.leb (timestamp_text best) (timestamp_text b) = true
                 /\ String.leb (timestamp_text r0) (timestamp_text b) = true).
    { subst b. destruct (String.ltb _ _) eqn:E; split; auto with text_order. }
    destruct Hb as [Hb1 Hb2].
    pose proof (IH b b (or_introl eq_refl)) as Hm.
    destruct Hin as [<-|[<-|Hin]].
    + exact (leb_trans _ _ _ Hb1 Hm).
    + exact (leb_trans _ _ _ Hb2 Hm).
    + apply IH. now right.
Qed.

(** *** [ORDER BY start_time DESC] *)

Lemma insert_by_start_desc_perm (s : Summary) (l : list Summary) :
  Permutation (insert_by_start_desc s l) (s :: l).
Proof.
  induction l as [|s' l IH]; cbn; [apply Permutation_refl|].
  destruct (String.leb _ _); [apply Permutation_refl|].
  eapply Permutation_trans; [apply perm_skip, IH|apply perm_swap].
Qed.

Lemma order_by_start_desc_perm (l : list Summary) :
  Permutation (order_by_start_desc l) l.
Proof.
  induction l as [|s l IH]; cbn; [apply perm_nil|].
  eapply Permutation_trans; [apply insert_by_start_desc_perm|now apply perm_skip].
Qed.

Lemma insert_by_start_desc_sorted (s : Summary) (l : list Summary) :
  StronglySorted newer_first l ->
  StronglySorted newer_first (insert_by_start_desc s l).
Proof.
  induction 1 as [|s' l Hl IH Hall]; cbn.
  - repeat constructor.
  - destruct (String.leb (start_time s') (start_time s)) eqn:E.
    + constructor; [now constructor|]. constructor; [exact E|].
      rewrite Forall_forall in *. intros x Hx. unfold newer_first in *.
      exact (leb_trans _ _ _ (Hall x Hx) E).
    + constructor; [exact IH|].
      apply (Permutation_Forall (Permutation_sym (insert_by_start_desc_perm s l))).
      constructor; [|exact Hall]. now apply not_leb_leb.
Qed.

Lemma order_by_start_desc_sorted (l : list Summary) :
  StronglySorted newer_first (order_by_start_desc l).
Proof.
  induction l as [|s l IH]; cbn; [constructor|].
  now apply insert_by_start_desc_sorted.
Qed.

(** *** Groups *)

Lemma in_group_keys (u : string) (rs : list Row) :
  In u (group_keys rs) <-> exists r, In r rs /\ playbook_uuid r = Some u.
Proof.
  unfold group_keys. rewrite nodup_In, in_flat_map. split.
  - intros (r & Hr & Hu). exists r. split; [exact Hr|].
    destruct (playbook_uuid r) as [v|]; [|destruct Hu].
    destruct Hu as [->|[]]. reflexivity.
  - intros (r & Hr & Hu). exists r. split; [exact Hr|].
    rewrite Hu. now left.
Qed.

Lemma in_group_iff (u : string) (r : Row) :
  in_group u r = true <-> playbook_uuid r = Some u.
Proof.
  unfold in_group. destruct (playbook_uuid r) as [v|].
  - rewrite String.eqb_eq. split; congruence.
  - split; discriminate.
Qed.

Lemma has_run_uuid_iff (r : Row) :
  has_run_uuid r = true <->
  exists u, playbook_uuid r = Some u /\ u <> "N/A".
Proof.
  unfold has_run_uuid. destruct (playbook_uuid r) as [v|].
  - rewrite negb_true_iff, String.eqb_neq. split.
    + intros H. now exists v.
    + intros (u & [= ->] & H). exact H.
  - split; [discriminate|]. intros (u & [=] & _).
Qed.

(** Rows left out by the [WHERE] clause belong to no group that is kept. *)
Lemma group_of_selected (u : string) (rs : list Row) :
  u <> "N/A" ->
  filter (in_group u) (filter has_run_uuid rs) = filter (in_group u) rs.
Proof.
  intros Hu. induction rs as [|r rs IH]; cbn; [reflexivity|].
  destruct (has_run_uuid r) eqn:E; cbn; [now rewrite IH|].
  destruct (in_group u r) eqn:G; [|exact IH].
  apply in_group_iff in G. exfalso.
  assert (has_run_uuid r = true) by (apply has_run_uuid_iff; eauto).
  congruence.
Qed.

Lemma summarize_uuid (u : string) (g : list Row) :
  g <> [] -> map s_playbook_uuid (summarize u g) = [u].
Proof. destruct g; [congruence|reflexivity]. Qed.

Lemma summarize_aggregates (u : string) (g : list Row) (s : Summary) :
  In s (summarize u g) ->
  s_playbook_uuid s = u /\
  task_count s = Z.of_nat (List.length g) /\
  In (start_time s) (map timestamp_text g) /\
  (forall r, In r g -> String.leb (start_time s) (timestamp_text r) = true) /\
  In (end_time s) (map timestamp_text g) /\
  (forall r, In r g -> String.leb (timestamp_text r) (end_time s) = true).
Proof.
  destruct g as [|r rest]; cbn [summarize]; [intros []|].
  intros [<-|[]]. cbn [s_playbook_uuid task_count start_time end_time].
  repeat split.
  - apply in_map, min_row_In.
  - intros x Hx. now apply min_row_least.
  - apply in_map, max_row_In.
  - intros x Hx. now apply max_row_greatest.
Qed.

Lemma uuids_of_groups (f : string -> list Summary) (keys : list string) :
  (forall u, In u keys -> map s_playbook_uuid (f u) = [u]) ->
  map s_playbook_uuid (flat_map f keys) = keys.
Proof.
  induction keys as [|u keys IH]; intros H; cbn; [reflexivity|].
  rewrite map_app, H by now left. cbn. f_equal. apply IH.
  intros v Hv. apply H. now right.
Qed.

(** Claim C4.  On a table with the persisted schema, [api_playbooks]
    answers with a list that has exactly one summary per run identifier
    found in the entries, the null and "N/A" identifiers left out; each
    summary counts the entries of its identifier and carries the least and
    the greatest of their timestamps as [start_time] and [end_time]; and
    the list is ordered by [start_time], greatest first. *)
Theorem C4_playbook_runs (s : Store.t) :
  queryable s = true ->
  exists tb out,
    s = Some tb /\
    api_playbooks (Some s) = inr (Json out) /\
    NoDup (map s_playbook_uuid out) /\
    (forall u,
       In u (map s_playbook_uuid out) <->
       u <> "N/A" /\ exists r, In r (rows tb) /\ playbook_uuid r = Some u) /\
    (forall sm,
       In sm out ->
       let group := filter (in_group (s_playbook_uuid sm)) (rows tb) in
       task_count sm = Z.of_nat (List.length group) /\
       In (start_time sm) (map timestamp_text group) /\
       (forall r, In r group ->
                  String.leb (start_time sm) (timestamp_text r) = true) /\
       In (end_time sm) (map timestamp_text group) /\
       (forall r, In r group ->
                  String.leb (timestamp_text r) (end_time sm) = true)) /\
    StronglySorted newer_first out.
Proof.
  intros H. destruct s as [tb|]; [|discriminate].
  exists tb, (playbook_runs (rows tb)). split; [reflexivity|].
  assert (Hcols : forallb (fun c => has_column c tb)
                    ["playbook_uuid"; "playbook"; "timestamp"] = true).
  { unfold queryable, create_columns in H. cbn [forallb] in *.
    repeat (apply andb_prop in H; let H1 := fresh "C" in destruct H as [H1 H]).
    repeat match goal with
           | Hc : has_column _ tb = true |- _ => rewrite Hc; clear Hc
           end.
    reflexivity. }
  split; [unfold api_playbooks; now rewrite Hcols|].
  set (sel := filter has_run_uuid (rows tb)).
  set (f := fun u => summarize u (filter (in_group u) sel)).
  assert (Hkey : forall u, In u (group_keys sel) ->
                           u <> "N/A" /\
                           exists r, In r (rows tb) /\ playbook_uuid r = Some u).
  { intros u Hu. apply in_group_keys in Hu. destruct Hu as (r & Hr & Hu).
    subst sel. apply filter_In in Hr. destruct Hr as [Hr Hq].
    apply has_run_uuid_iff in Hq. destruct Hq as (v & Hv & Hne).
    split; [congruence|eauto]. }
  assert (Hmap : map s_playbook_uuid (flat_map f (group_keys sel)) = group_keys sel).
  { apply uuids_of_groups. intros u Hu. subst f. cbv beta.
    apply summarize_uuid. apply in_group_keys in Hu.
    destruct Hu as (r & Hr & Hu). intros E.
    assert (Hin : In r (filter (in_group u) sel))
      by (apply filter_In; split; [exact Hr|now apply in_group_iff]).
    rewrite E in Hin. destruct Hin. }
  assert (Hperm : Permutation (playbook_runs (rows tb)) (flat_map f (group_keys sel)))
    by apply order_by_start_desc_perm.
  split; [|split; [|split]].
  - apply (Permutation_NoDup (Permutation_map _ (Permutation_sym Hperm))).
    rewrite Hmap. apply NoDup_nodup.
  - intros u.
    rewrite (Permutation_in' (eq_refl u) (Permutation_map s_playbook_uuid Hperm)).
    rewrite Hmap. split; [apply Hkey|].
    intros (Hne & r & Hr & Hu). apply in_group_keys. exists r.
    split; [|exact Hu]. subst sel. apply filter_In. split; [exact Hr|].
    apply has_run_uuid_iff. eauto.
  - intros sm Hsm. apply (Permutation_in _ Hperm) in Hsm.
    apply in_flat_map in Hsm. destruct Hsm as (u & Hu & Hsm). subst f. cbv beta in Hsm.
    apply summarize_aggregates in Hsm. destruct Hsm as (Eu & Hsm).
    destruct (Hkey u Hu) as [Hne _]. subst sel.
    rewrite (group_of_selected u _ Hne) in Hsm. rewrite Eu. exact Hsm.
  - apply order_by_start_desc_sorted.
Qed.

(** *** Instances on concrete inputs *)

Lemma C2_total_records_matches_pages_witness :
  exists body keys,
    api_logs (Some example_store) no_args = inr (Json body) /\
    total_records body = Z.of_nat (List.length (matching example_store no_args)) /\
    data body =
      map (entry_of keys)
        (Sql.limit_offset PER_PAGE ((page_of no_args - 1) * PER_PAGE)
           (Sql.order_by_id_desc (matching example_store no_args))) /\
    (forall p,
       1 <= p <= total_pages body ->
       exists body',
         api_logs (Some example_store) (set_page no_args p) = inr (Json body') /\
         total_records body' = total_records body) /\
    total_records body =
      Z.of_nat (List.length
                  (pages_concatenated (Some example_store) no_args
                     (Z.to_nat (total_pages body)))).
Proof.
  exact (C2_total_records_matches_pages example_store no_args
           eq_refl eq_refl eq_refl eq_refl).
Defined.

Lemma C3_pagination_witness :
  exists body,
    api_logs (Some example_store) no_args = inr (Json body) /\
    total_records body = 2 /\
    total_pages body = math_ceil_div 2 PER_PAGE /\
    100 * (total_pages body - 1) < 2 <= 100 * total_pages body /\
    (forall p : Z,
       total_pages body < p ->
       page_in_range p = true ->
       exists body',
         api_logs (Some example_store) (set_page no_args p) = inr (Json body') /\
         data body' = [] /\
         total_pages body' = total_pages body /\
         total_records body' = 2) /\
    (2 = 0 -> data body = [] /\ total_pages body = 0 /\ total_records body = 0).
Proof. exact (C3_pagination example_store no_args eq_refl eq_refl eq_refl). Defined.

Lemma C4_playbook_runs_witness :
  exists tb out,
    example_store = Some tb /\
    api_playbooks (Some example_store) = inr (Json out) /\
    NoDup (map s_playbook_uuid out) /\
    (forall u,
       In u (map s_playbook_uuid out) <->
       u <> "N/A" /\ exists r, In r (rows tb) /\ playbook_uuid r = Some u) /\
    (forall sm,
       In sm out ->
       let group := filter (in_group (s_playbook_uuid sm)) (rows tb) in
       task_count sm = Z.of_nat (List.length group) /\
       In (start_time sm) (map timestamp_text group) /\
       (forall r, In r group ->
                  String.leb (start_time sm) (timestamp_text r) = true) /\
       In (end_time sm) (map timestamp_text group) /\
       (forall r, In r group ->
                  String.leb (timestamp_text r) (end_time sm) = true)) /\
    StronglySorted newer_first out.
Proof. exact (C4_playbook_runs example_store eq_refl). Defined.

Lemma C9_zero_padded_filters_witness :
  api_logs (Some example_store) (set_month no_args (Some "3")) =
    api_logs (Some example_store) (set_month no_args (Some (Py.zfill "3" 2))) /\
  api_logs (Some example_store) (set_day no_args (Some "3")) =
    api_logs (Some example_store) (set_day no_args (Some (Py.zfill "3" 2))) /\
  api_logs (Some example_store) (set_hour no_args (Some "3")) =
    api_logs (Some example_store) (set_hour no_args (Some (Py.zfill "3" 2))).
Proof.
  exact (C9_zero_padded_filters (Some example_store) no_args "3"
           ltac:(discriminate)).
Defined.

End QueryFacts.

(** * Further properties of the recorder *)

Module RecorderMore.

Import Recorder RecorderFacts.
Local Open Scope py_scope.
Local Open Scope list_scope.

(** *** One callback, case by case *)

Lemma insert_refused (ts : DateTime.t) (h p u a t s j : string) (st : Store.t) :
  insertable st = false ->
  Store.insert ts h p u a t s j st = inl Py.sqlite3_OperationalError.
Proof.
  unfold insertable, Store.insert. destruct st as [tb|]; [|reflexivity].
  now intros ->.
Qed.

Lemma _log_result_dropped (io : IO) (r : TaskResult) (status : string) (st : State)
    (c : string) :
  db_connection (self st) = Some c ->
  (write_ok io && insertable (store (world st)))%bool = false ->
  _log_result io r status st =
  (inr tt, with_warning st (CouldNotLogTask Py.sqlite3_OperationalError)).
Proof.
  intros Hc Hf. unfold _log_result, json_dumps, execute_insert_and_commit.
  unfold_m. rewrite Hc. unfold with_warning.
  destruct (write_ok io); cbn [andb] in Hf.
  - destruct (dumps r) as [e|j]; cbn [Py.is_Exception];
      rewrite (insert_refused _ _ _ _ _ _ _ _ _ Hf); reflexivity.
  - destruct (dumps r) as [e|j]; reflexivity.
Qed.

Lemma insertable_table (s : Store.t) :
  insertable s = true -> exists tb, s = Some tb.
Proof. destruct s as [tb|]; [eauto|discriminate]. Qed.

(** What one delivery does to the state: nothing to the world, or one row
    appended. *)
Lemma deliver_cases (sg : Signal) (st : State) :
  exists st',
    deliver sg st = (inr tt, st') /\
    db_connection (self st') = db_connection (self st) /\
    dir_exists (world st') = dir_exists (world st) /\
    (store (world st') = store (world st) \/
     exists tb row,
       is_task_outcome sg = true /\
       store (world st) = Some tb /\
       Store.id row = Store.sequence tb + 1 /\
       store (world st') =
         Some (Store.mkTable (Store.columns tb) (Store.rows tb ++ [row])
                 (Store.sequence tb + 1))).
Proof.
  destruct sg as [f u|k io r ign].
  - cbn [deliver]. unfold v2_playbook_on_start. unfold_m.
    destruct u; cbn; eexists; (split; [reflexivity|]); cbn; auto.
  - rewrite deliver_task_outcome.
    destruct (db_connection (self st)) as [c|] eqn:Hc.
    + destruct (write_ok io && insertable (store (world st)))%bool eqn:Hw.
      * apply andb_prop in Hw. destruct Hw as [Hw Hi].
        destruct (insertable_table _ Hi) as [tb Hs]. rewrite Hs in Hi.
        rewrite (_log_result_written _ _ _ _ _ _ Hc Hs Hi Hw).
        eexists. split; [reflexivity|]. cbn. repeat split; [exact Hc|].
        right. exists tb. eexists. repeat split; [exact Hs|reflexivity].
      * rewrite (_log_result_dropped _ _ _ _ _ Hc Hw).
        eexists. split; [reflexivity|]. cbn. auto.
    + rewrite (_log_result_disabled _ _ _ _ Hc). exists st. auto.
Qed.

(** *** Failures stay inside the plugin *)

(** When the recorder is connected but the write fails (the database
    refuses it, or the table or one of the columns of the [INSERT] is
    missing), the callback returns normally, the world is as before, and
    exactly one warning is reported. *)
Theorem write_failure_contained
    (k : Kind) (io : IO) (r : TaskResult) (ign : bool) (st : State) (c : string) :
  db_connection (self st) = Some c ->
  (write_ok io && insertable (store (world st)))%bool = false ->
  deliver (TaskOutcome k io r ign) st =
  (inr tt, with_warning st (CouldNotLogTask Py.sqlite3_OperationalError)).
Proof.
  intros Hc Hf. rewrite deliver_task_outcome. now apply (_log_result_dropped _ _ _ _ c).
Qed.

(** *** The log only grows *)

(** Whatever the state and the signals, the callbacks only append: the
    rows the store held are still there, first and unchanged, at most one
    row is added per task outcome, and the column list is untouched. *)
Theorem callbacks_append_only (sgs : list Signal) (st : State) :
  exists added,
    stored_rows (world (snd (deliver_all sgs st))) =
      stored_rows (world st) ++ added /\
    (List.length added <= List.length (filter is_task_outcome sgs))%nat /\
    option_map Store.columns (store (world (snd (deliver_all sgs st)))) =
      option_map Store.columns (store (world st)).
Proof.
  revert st. induction sgs as [|sg rest IH]; intros st.
  - exists []. cbn. rewrite app_nil_r. auto.
  - cbn [deliver_all]. unfold bind.
    destruct (deliver_cases sg st) as (st1 & E & _ & _ & Hs). rewrite E.
    destruct (IH st1) as (added & Hr & Hl & Hcol).
    destruct Hs as [Hs|(tb & row & Hk & Hs & _ & Hs1)].
    + exists added. unfold stored_rows in *. rewrite Hr, Hcol, Hs.
      repeat split. cbn [filter]. destruct (is_task_outcome sg); cbn; lia.
    + exists (row :: added). unfold stored_rows in *.
      rewrite Hr, Hcol, Hs1, Hs. cbn [Store.rows Store.columns option_map].
      rewrite <- app_assoc. repeat split. cbn [filter]. rewrite Hk. cbn. lia.
Qed.

Lemma sorted_snoc (l : list Store.Row) (x : Store.Row) :
  StronglySorted (fun a b => Store.id a < Store.id b) l ->
  Forall (fun r => Store.id r < Store.id x) l ->
  StronglySorted (fun a b => Store.id a < Store.id b) (l ++ [x]).
Proof.
  induction 1 as [|a l Hl IH Ha]; intros Hx; cbn.
  - repeat constructor.
  - inversion Hx; subst. constructor; [now apply IH|].
    apply Forall_app. split; [exact Ha|]. now repeat constructor.
Qed.

Lemma deliver_well_sequenced (sg : Signal) (st : State) :
  well_sequenced (store (world st)) ->
  well_sequenced (store (world (snd (deliver sg st)))).
Proof.
  intros H. destruct (deliver_cases sg st) as (st1 & E & _ & _ & Hs). rewrite E.
  cbn [snd]. destruct Hs as [Hs|(tb & row & _ & Hs & Hid & Hs1)].
  - now rewrite Hs.
  - rewrite Hs in H. rewrite Hs1. cbn in *. destruct H as [Hsort Hb]. split.
    + apply sorted_snoc; [exact Hsort|].
      eapply Forall_impl; [|exact Hb]. cbn. intros a Ha. lia.
    + apply Forall_app. split.
      * eapply Forall_impl; [|exact Hb]. cbn. intros a Ha. lia.
      * repeat constructor. lia.
Qed.

(** One guarded [ALTER TABLE] on a table: the column is appended if the
    table lacks it; rows and counter stay, and so do the other columns. *)
Lemma add_column_table (c : string) (tb : Store.Table) :
  exists added,
    match Store.alter_table_add_column c (Some tb) return Store.t with
    | inr s' => s'
    | inl _ => Some tb
    end =
      Some (Store.mkTable (Store.columns tb ++ added) (Store.rows tb)
              (Store.sequence tb)) /\
    incl added [c] /\
    Store.has_column c
      (Store.mkTable (Store.columns tb ++ added) (Store.rows tb)
         (Store.sequence tb)) = true /\
    forall d, Store.has_column d tb = true ->
              Store.has_column d
                (Store.mkTable (Store.columns tb ++ added) (Store.rows tb)
                   (Store.sequence tb)) = true.
Proof.
  unfold Store.alter_table_add_column.
  destruct (Store.has_column c tb) eqn:E.
  - exists []. rewrite app_nil_r. destruct tb as [cols rws sq]. cbn.
    repeat split; [intros x []|exact E|auto].
  - exists [c]. repeat split.
    + apply incl_refl.
    + unfold Store.has_column. cbn. rewrite existsb_app. cbn.
      unfold Store.same_column at 2. rewrite String.eqb_refl.
      now rewrite orb_true_r.
    + intros d Hd. unfold Store.has_column in *. cbn. rewrite existsb_app, Hd.
      reflexivity.
Qed.

(** How the three guarded [ALTER TABLE] statements change a table: columns
    are appended, each only if the table lacks it; rows and counter stay. *)
Lemma migrate_table (tb : Store.Table) :
  exists added,
    migrate (Some tb) =
      Some (Store.mkTable (Store.columns tb ++ added) (Store.rows tb)
              (Store.sequence tb)) /\
    incl added ["playbook"; "playbook_uuid"; "module"] /\
    migrated (migrate (Some tb)) = true /\
    forall d, Store.has_column d tb = true ->
              Store.has_column d
                (Store.mkTable (Store.columns tb ++ added) (Store.rows tb)
                   (Store.sequence tb)) = true.
Proof.
  unfold migrate. cbv zeta beta.
  destruct (add_column_table "playbook" tb) as (a1 & -> & I1 & H1 & M1).
  destruct (add_column_table "playbook_uuid"
              (Store.mkTable (Store.columns tb ++ a1) (Store.rows tb)
                 (Store.sequence tb))) as (a2 & -> & I2 & H2 & M2).
  cbn [Store.columns Store.rows Store.sequence] in *.
  destruct (add_column_table "module"
              (Store.mkTable ((Store.columns tb ++ a1) ++ a2) (Store.rows tb)
                 (Store.sequence tb))) as (a3 & -> & I3 & H3 & M3).
  cbn [Store.columns Store.rows Store.sequence] in *.
  exists (a1 ++ a2 ++ a3). rewrite <- !app_assoc in *. repeat split.
  - intros x Hx. apply in_app_or in Hx. destruct Hx as [Hx|Hx];
      [apply I1 in Hx; cbn in *; tauto|].
    apply in_app_or in Hx. destruct Hx as [Hx|Hx];
      [apply I2 in Hx|apply I3 in Hx]; cbn in *; tauto.
  - unfold migrated. now rewrite (M3 _ (M2 _ H1)), (M3 _ H2), H3.
  - intros d Hd. apply M3, M2, M1, Hd.
Qed.

Lemma __init___store (env : Env) (w : World) :
  store (world (snd (__init__ env w))) = store w \/
  store (world (snd (__init__ env w))) =
    fst (migrate_under env (Store.create_table_if_not_exists (store w))).
Proof.
  unfold __init__. rewrite _initialize_db_run. cbv zeta. cbn [world self].
  destruct (_ && negb (makedirs_ok env))%bool; [now left|].
  destruct (negb (connect_ok env)); [now left|].
  destruct (negb (ddl_ok env)); [now left|]. right.
  now destruct (migrate_under env _) as [s' [e|]].
Qed.

Lemma add_column_under_well_sequenced (env : Env) (c : string) (s : Store.t) :
  well_sequenced s ->
  match add_column_under env c s with
  | inr s' => well_sequenced s'
  | inl _ => True
  end.
Proof.
  intros H. unfold add_column_under.
  destruct (alter_fault env c); [|exact H|exact I].
  destruct s as [tb|]; [|exact H].
  destruct (add_column_table c tb) as (added & -> & _). exact H.
Qed.

Lemma migrate_under_well_sequenced (env : Env) (s : Store.t) :
  well_sequenced s -> well_sequenced (fst (migrate_under env s)).
Proof.
  intros H. unfold migrate_under.
  pose proof (add_column_under_well_sequenced env "playbook" s H) as H1.
  destruct (add_column_under env "playbook" s) as [e1|s1]; [exact H|].
  pose proof (add_column_under_well_sequenced env "playbook_uuid" s1 H1) as H2.
  destruct (add_column_under env "playbook_uuid" s1) as [e2|s2]; [exact H1|].
  pose proof (add_column_under_well_sequenced env "module" s2 H2) as H3.
  destruct (add_column_under env "module" s2) as [e3|s3]; [exact H2|exact H3].
Qed.

Lemma migrate_create_well_sequenced (env : Env) (s : Store.t) :
  well_sequenced s ->
  well_sequenced (fst (migrate_under env (Store.create_table_if_not_exists s))).
Proof.
  intros H. apply migrate_under_well_sequenced.
  destruct s as [tb|]; [exact H|]. cbn. split; constructor.
Qed.

(** The ids of the table follow insertion order, and stay below the
    AUTOINCREMENT counter, after any process if they did before it: ids
    are unique and strictly increasing in insertion order. *)
Theorem process_keeps_ids_sequenced (env : Env) (sgs : list Signal) (w : World) :
  well_sequenced (store w) ->
  well_sequenced (store (world (snd (process env sgs w)))).
Proof.
  intros H. unfold process.
  assert (H0 : well_sequenced (store (world (snd (__init__ env w))))).
  { destruct (__init___store env w) as [-> | ->];
      [exact H|now apply migrate_create_well_sequenced]. }
  destruct (__init__ env w) as [[e|[]] st0]; cbn [snd] in *; [exact H0|].
  clear H. revert st0 H0. induction sgs as [|sg rest IH]; intros st0 H0.
  - exact H0.
  - cbn [deliver_all]. unfold bind.
    pose proof (deliver_well_sequenced sg st0 H0) as H1.
    destruct (deliver_cases sg st0) as (st1 & E & _). rewrite E in *.
    cbn [snd] in H1. now apply IH.
Qed.

(** *** Initialization, path by path *)

(** When the directory is there (or can be made), the connection opens,
    the [CREATE TABLE] statement succeeds and no [ALTER TABLE] meets a
    lock or another fault of the database, the initialization ends
    connected and without warning, on a table that has the three columns of
    the migration step; a table that existed keeps its rows, its counter
    and its columns in their order, the missing ones among [playbook],
    [playbook_uuid] and [module] being appended; and if it had the other
    columns the [INSERT] names, it now takes the recorder's writes. *)
Theorem initialization_migrates (env : Env) (w : World) :
  directory_ready env w = true ->
  connect_ok env = true ->
  ddl_ok env = true ->
  alters_attempted env = true ->
  exists st tb',
    __init__ env w = (inr tt, st) /\
    db_connection (self st) = Some (full_path env) /\
    _display (self st) = [] /\
    store (world st) = Some tb' /\
    migrated (Some tb') = true /\
    forall tb,
      store w = Some tb ->
      Store.rows tb' = Store.rows tb /\
      Store.sequence tb' = Store.sequence tb /\
      (exists added,
         Store.columns tb' = Store.columns tb ++ added /\
         incl added ["playbook"; "playbook_uuid"; "module"]) /\
      (forallb (fun c => Store.has_column c tb)
         ["timestamp"; "inventory_hostname"; "task_name"; "status"; "result"]
       = true ->
       insertable (Some tb') = true).
Proof.
  intros Hd Hc Hl Ha. unfold __init__. rewrite _initialize_db_run. cbv zeta.
  cbn [world self]. rewrite (directory_ready_proceeds _ _ Hd), Hc, Hl.
  rewrite (migrate_under_attempted env _ Ha).
  cbn [negb]. destruct (store w) as [tb|] eqn:Hs;
    cbn [Store.create_table_if_not_exists].
  - destruct (migrate_table tb) as (added & E & I & Hm & Mono).
    rewrite E in *. eexists. eexists. split; [reflexivity|].
    cbn [self world db_connection _display store].
    do 3 (split; [reflexivity|]). split; [exact Hm|].
    intros tbx Hx. injection Hx as <-. cbn [Store.rows Store.sequence Store.columns].
    do 2 (split; [reflexivity|]). split; [eauto|].
    intros Hb. cbn [forallb] in Hb.
    repeat (apply andb_prop in Hb; let H1 := fresh "C" in destruct Hb as [H1 Hb]).
    unfold migrated in Hm.
    apply andb_prop in Hm. destruct Hm as [Hm Hmod].
    apply andb_prop in Hm. destruct Hm as [Hpb Hpu].
    unfold insertable, Store.insert_columns. cbn [forallb].
    rewrite Hpb, Hpu, Hmod.
    repeat match goal with
           | Hc0 : Store.has_column _ tb = true |- _ =>
               rewrite (Mono _ Hc0); clear Hc0
           end.
    reflexivity.
  - eexists. eexists. split; [reflexivity|].
    cbn [self world db_connection _display store].
    do 4 (split; [reflexivity|]). discriminate.
Qed.

(** When the connection cannot be opened, the process goes on without one:
    whatever signals follow, every callback returns normally, the store is
    exactly as the process found it, and the only warning is the one of the
    initialization. *)
Theorem disabled_after_connect_failure
    (env : Env) (w : World) (sgs : list Signal) :
  directory_ready env w = true ->
  connect_ok env = false ->
  exists st,
    process env sgs w = (inr tt, st) /\
    store (world st) = store w /\
    db_connection (self st) = None /\
    _display (self st) =
      [CouldNotInitializeDB (full_path env) Py.sqlite3_OperationalError].
Proof.
  intros Hd Hc. unfold process, __init__. rewrite _initialize_db_run. cbv zeta.
  cbn [world self]. rewrite (directory_ready_proceeds _ _ Hd), Hc. cbn [negb].
  match goal with
  | |- context [deliver_all sgs ?s0] =>
      destruct (deliver_all_disabled sgs s0 eq_refl) as (st & E & W & C & D)
  end.
  exists st. rewrite E. cbn in W, D. rewrite W. auto.
Qed.

(** When the connection opens but the first statement fails, the recorder
    keeps its connection: the store is as it was and one warning is
    reported, but the recorder is not disabled, and a task outcome that
    follows is written if the table takes it. *)
Theorem connection_kept_after_statement_failure
    (env : Env) (w : World)
    (k : Kind) (io : IO) (r : TaskResult) (ign : bool) (tb : Store.Table) :
  directory_ready env w = true ->
  connect_ok env = true ->
  ddl_ok env = false ->
  store w = Some tb ->
  insertable (Some tb) = true ->
  write_ok io = true ->
  db_connection (self (snd (__init__ env w))) = Some (full_path env) /\
  store (world (snd (__init__ env w))) = store w /\
  _display (self (snd (__init__ env w))) =
    [CouldNotInitializeDB (full_path env) Py.sqlite3_OperationalError] /\
  exists row,
    stored_rows (world (snd (process env [TaskOutcome k io r ign] w))) =
      stored_rows w ++ [row] /\
    Store.status row = Some (spec_status k (changed_flag r) ign).
Proof.
  intros Hd Hc Hl Hs Hi Hw. unfold process, __init__.
  rewrite _initialize_db_run. cbv zeta.
  cbn [world self]. rewrite (directory_ready_proceeds _ _ Hd), Hc, Hl.
  cbn [negb snd with_warning self world db_connection _display store app].
  repeat split.
  cbn [deliver_all]. unfold bind at 1. rewrite deliver_task_outcome.
  erewrite _log_result_written; [|reflexivity|exact Hs|exact Hi|exact Hw].
  eexists. unfold stored_rows. cbn. rewrite Hs. split; reflexivity.
Qed.

(** *** The log of a healthy recorder *)

Lemma insertable_columns (tb : Store.Table) (rws : list Store.Row) (sq : Z) :
  insertable (Some tb) = true ->
  insertable (Some (Store.mkTable (Store.columns tb) rws sq)) = true.
Proof. intros H. exact H. Qed.

Lemma deliver_run_start (f : string) (u : option string) (st : State) :
  deliver (RunStart f u) st =
  (inr tt,
   mkState (world st)
     (mkCallback (db_connection (self st)) (Py.basename f)
        (match u with Some v => v | None => playbook_uuid (self st) end)
        (_display (self st)))).
Proof.
  cbn [deliver]. unfold v2_playbook_on_start. unfold_m.
  destruct st as [w [c n i d]]. destruct u; reflexivity.
Qed.

Lemma deliver_all_healthy (sgs : list Signal) (st : State) (c : string)
    (tb : Store.Table) :
  db_connection (self st) = Some c ->
  store (world st) = Some tb ->
  insertable (Some tb) = true ->
  all_writes_ok sgs = true ->
  exists st',
    deliver_all sgs st = (inr tt, st') /\
    db_connection (self st') = Some c /\
    store (world st') =
      Some (Store.mkTable (Store.columns tb)
              (Store.rows tb ++
               written (playbook_name (self st)) (playbook_uuid (self st))
                       (Store.sequence tb + 1) sgs)
              (Store.sequence tb +
               Z.of_nat (List.length (filter is_task_outcome sgs)))).
Proof.
  revert st tb. induction sgs as [|sg rest IH]; intros st tb Hc Hs Hi Hw.
  - exists st. cbn. rewrite app_nil_r, Z.add_0_r.
    repeat split; [exact Hc|]. rewrite Hs. now destruct tb.
  - cbn [all_writes_ok forallb] in Hw. apply andb_prop in Hw.
    destruct Hw as [Hw Hrest]. cbn [deliver_all]. unfold bind at 1.
    destruct sg as [f u|k io r ign].
    + rewrite deliver_run_start. cbn [filter is_task_outcome written].
      match goal with
      | |- context [deliver_all rest ?s1] =>
          destruct (IH s1 tb Hc Hs Hi Hrest) as (st' & E & C & S)
      end.
      exists st'. cbn in S. auto.
    + rewrite deliver_task_outcome.
      rewrite (_log_result_written _ _ _ _ _ _ Hc Hs Hi Hw).
      match goal with
      | |- context [deliver_all rest ?s1] =>
          destruct (IH s1 _ Hc eq_refl
                      (insertable_columns tb _ _ Hi) Hrest) as (st' & E & C & S)
      end.
      exists st'. split; [exact E|]. split; [exact C|].
      rewrite S. cbn [Store.columns Store.rows Store.sequence with_store self
                      filter is_task_outcome written List.length].
      unfold entry_row. rewrite <- app_assoc. cbn [app].
      do 2 f_equal. lia.
Qed.

(** With a connection, a table that takes the [INSERT] and no write
    failure, the signals of a run leave in the store, after the rows it
    held, exactly one entry per task outcome, in arrival order: each with
    the host, task and module of its signal, the status derived from it,
    the run name and identifier in force when it arrived, and the next id
    of the counter.  The recorder stays connected and ends with the name
    and identifier of the last run-start signal. *)
Theorem healthy_log (sgs : list Signal) (st : State) (c : string) (tb : Store.Table) :
  db_connection (self st) = Some c ->
  store (world st) = Some tb ->
  insertable (Some tb) = true ->
  all_writes_ok sgs = true ->
  exists st',
    deliver_all sgs st = (inr tt, st') /\
    db_connection (self st') = Some c /\
    store (world st') =
      Some (Store.mkTable (Store.columns tb)
              (Store.rows tb ++
               written (playbook_name (self st)) (playbook_uuid (self st))
                       (Store.sequence tb + 1) sgs)
              (Store.sequence tb +
               Z.of_nat (List.length (filter is_task_outcome sgs)))) /\
    playbook_name (self st') = run_name (playbook_name (self st)) sgs /\
    playbook_uuid (self st') = run_uuid (playbook_uuid (self st)) sgs.
Proof.
  intros Hc Hs Hi Hw.
  destruct (deliver_all_healthy sgs st c tb Hc Hs Hi Hw) as (st' & E & C & S).
  destruct (deliver_all_run_fields sgs st) as (U & N & _).
  rewrite E in U, N. cbn [snd] in U, N.
  exists st'. auto.
Qed.

(** *** The run name *)

Lemma basename_no_slash (p : string) : Py.has_slash (Py.basename p) = false.
Proof.
  induction p as [|ch rest IH]; [reflexivity|]. cbn [Py.basename].
  destruct (Py.has_slash rest) eqn:E; [exact IH|].
  destruct (Ascii.eqb ch "/") eqn:Ec; [exact E|].
  cbn [Py.has_slash]. now rewrite Ec, E.
Qed.

Lemma basename_suffix (p : string) :
  exists d,
    p = (d ++ Py.basename p)%string /\
    (d = EmptyString \/ exists d', d = (d' ++ "/")%string).
Proof.
  induction p as [|ch rest IH].
  - exists EmptyString. auto.
  - cbn [Py.basename]. destruct (Py.has_slash rest) eqn:E.
    + destruct IH as (d & Hp & Hd). exists (String ch d). split.
      * cbn. now rewrite <- Hp.
      * right. destruct Hd as [->|(d' & ->)].
        -- exfalso. pose proof (basename_no_slash rest) as Hn.
           cbn in Hp. rewrite <- Hp in Hn. congruence.
        -- exists (String ch d'). reflexivity.
    + destruct (Ascii.eqb ch "/") eqn:Ec.
      * apply Ascii.eqb_eq in Ec. subst ch. exists "/"%string. split; [reflexivity|].
        right. exists EmptyString. reflexivity.
      * exists EmptyString. auto.
Qed.

(** The run name the recorder keeps after a run-start signal is the part of
    the file name after its last slash: it holds no slash, and the file
    name is it, preceded by nothing or by a prefix that ends with a
    slash. *)
Theorem run_name_is_base_name (f : string) (u : option string) (st : State) :
  let name := playbook_name (self (snd (deliver (RunStart f u) st))) in
  Py.has_slash name = false /\
  exists d,
    f = (d ++ name)%string /\
    (d = EmptyString \/ exists d', d = (d' ++ "/")%string).
Proof.
  destruct (deliver_run_fields (RunStart f u) st) as (_ & N & _).
  cbv zeta. rewrite N. cbn [run_name].
  split; [apply basename_no_slash|apply basename_suffix].
Qed.

(** *** Instances on concrete inputs *)

Lemma write_failure_contained_witness :
  deliver (TaskOutcome failed example_io_write_fails example_result true)
    example_state =
  (inr tt, with_warning example_state (CouldNotLogTask Py.sqlite3_OperationalError)).
Proof.
  exact (write_failure_contained failed example_io_write_fails example_result true
           example_state "/var/cache/ansible_logs/logs.db" eq_refl eq_refl).
Defined.

Lemma process_keeps_ids_sequenced_witness :
  well_sequenced
    (store (world (snd (process example_env
                          [TaskOutcome ok example_io example_result false;
                           TaskOutcome skipped example_io example_result false]
                          (mkWorld true (Some legacy_table)))))).
Proof.
  apply (process_keeps_ids_sequenced example_env _ (mkWorld true (Some legacy_table))).
  cbn. split; repeat constructor. cbn. lia.
Defined.

Lemma initialization_migrates_witness :
  exists st tb',
    __init__ example_env (mkWorld true (Some legacy_table)) = (inr tt, st) /\
    db_connection (self st) = Some (full_path example_env) /\
    _display (self st) = [] /\
    store (world st) = Some tb' /\
    migrated (Some tb') = true /\
    forall tb,
      store (mkWorld true (Some legacy_table)) = Some tb ->
      Store.rows tb' = Store.rows tb /\
      Store.sequence tb' = Store.sequence tb /\
      (exists added,
         Store.columns tb' = Store.columns tb ++ added /\
         incl added ["playbook"; "playbook_uuid"; "module"]) /\
      (forallb (fun c => Store.has_column c tb)
         ["timestamp"; "inventory_hostname"; "task_name"; "status"; "result"]
       = true ->
       insertable (Some tb') = true).
Proof.
  exact (initialization_migrates example_env (mkWorld true (Some legacy_table))
           eq_refl eq_refl eq_refl eq_refl).
Defined.

Lemma disabled_after_connect_failure_witness :
  exists st,
    process example_env_connect_fails
      [RunStart "/srv/site.yml" (Some "u1");
       TaskOutcome ok example_io example_result false]
      (mkWorld true (Some legacy_table)) = (inr tt, st) /\
    store (world st) = store (mkWorld true (Some legacy_table)) /\
    db_connection (self st) = None /\
    _display (self st) =
      [CouldNotInitializeDB (full_path example_env_connect_fails)
         Py.sqlite3_OperationalError].
Proof.
  exact (disabled_after_connect_failure example_env_connect_fails
           (mkWorld true (Some legacy_table)) _ eq_refl eq_refl).
Defined.

Lemma connection_kept_after_statement_failure_witness :
  db_connection (self (snd (__init__ example_env_ddl_fails
                              (mkWorld true (Some example_table))))) =
    Some (full_path example_env_ddl_fails) /\
  store (world (snd (__init__ example_env_ddl_fails
                       (mkWorld true (Some example_table))))) =
    store (mkWorld true (Some example_table)) /\
  _display (self (snd (__init__ example_env_ddl_fails
                         (mkWorld true (Some example_table))))) =
    [CouldNotInitializeDB (full_path example_env_ddl_fails)
       Py.sqlite3_OperationalError] /\
  exists row,
    stored_rows (world (snd (process example_env_ddl_fails
                               [TaskOutcome unreachable example_io example_result false]
                               (mkWorld true (Some example_table))))) =
      stored_rows (mkWorld true (Some example_table)) ++ [row] /\
    Store.status row =
      Some (spec_status unreachable (changed_flag example_result) false).
Proof.
  exact (connection_kept_after_statement_failure example_env_ddl_fails
           (mkWorld true (Some example_table)) unreachable example_io
           example_result false example_table
           eq_refl eq_refl eq_refl eq_refl eq_refl eq_refl).
Defined.

Lemma healthy_log_witness :
  exists st',
    deliver_all example_signals example_state = (inr tt, st') /\
    db_connection (self st') = Some "/var/cache/ansible_logs/logs.db" /\
    store (world st') =
      Some (Store.mkTable (Store.columns example_table)
              (Store.rows example_table ++
               written (playbook_name (self example_state))
                       (playbook_uuid (self example_state))
                       (Store.sequence example_table + 1) example_signals)
              (Store.sequence example_table +
               Z.of_nat (List.length (filter is_task_outcome example_signals)))) /\
    playbook_name (self st') = "site.yml" /\
    playbook_uuid (self st') = "u1".
Proof.
  exact (healthy_log example_signals example_state
           "/var/cache/ansible_logs/logs.db" example_table
           eq_refl eq_refl eq_refl eq_refl).
Defined.

End RecorderMore.

(** * Further properties of the query service *)

Module QueryMore.

Import Store QueryService QueryFacts.
Local Open Scope list_scope.

(** *** What a page holds *)

Lemma in_firstn_in {A : Type} (n : nat) (l : list A) (x : A) :
  In x (firstn n l) -> In x l.
Proof.
  revert l. induction n as [|n IH]; intros [|a l]; cbn; try tauto.
  intros [->|H]; auto.
Qed.

Lemma in_skipn_in {A : Type} (n : nat) (l : list A) (x : A) :
  In x (skipn n l) -> In x l.
Proof.
  revert l. induction n as [|n IH]; intros [|a l]; cbn; try tauto.
  intros H. right. now apply IH.
Qed.

Lemma in_limit_offset {A : Type} (n k : Z) (l : list A) (x : A) :
  In x (Sql.limit_offset n k l) -> In x l.
Proof.
  rewrite limit_offset_lists. destruct (n <? 0); intros H.
  - now apply in_skipn_in in H.
  - now apply in_firstn_in, in_skipn_in in H.
Qed.

Lemma in_insert_by_id_desc (r x : Row) (l : list Row) :
  In x (Sql.insert_by_id_desc r l) <-> x = r \/ In x l.
Proof.
  induction l as [|r' l IH]; cbn.
  - intuition.
  - destruct (id r' <=? id r); cbn; [intuition|]. rewrite IH. intuition.
Qed.

Lemma in_order_by_id_desc (x : Row) (l : list Row) :
  In x (Sql.order_by_id_desc l) <-> In x l.
Proof.
  induction l as [|r l IH]; cbn; [tauto|].
  rewrite in_insert_by_id_desc, IH. intuition.
Qed.

Lemma in_and_if_keep (b : bool) (c c' : Sql.Cond) (w : list Sql.Cond) :
  In c w -> In c (and_if b c' w).
Proof. unfold and_if. destruct b; [|auto]. intros H. apply in_or_app. auto. Qed.

Lemma in_and_if_new (c : Sql.Cond) (w : list Sql.Cond) : In c (and_if true c w).
Proof. unfold and_if. apply in_or_app. right. now left. Qed.

Lemma truthy_not_empty (v : string) : v <> EmptyString -> Py.truthy_str v = true.
Proof. destruct v; [contradiction|reflexivity]. Qed.

(** The condition each filter of the request puts in the clause. *)
Lemma host_condition (rq : Request) (v : string) :
  arg_host rq = Some v -> v <> EmptyString ->
  In (Sql.LikeParam "inventory_hostname" ("%" ++ v ++ "%")) (build_where rq).
Proof.
  intros Hs Hv. unfold build_where. cbv zeta. rewrite Hs. cbn [args_get].
  do 9 apply in_and_if_keep.
  rewrite (truthy_not_empty v Hv). apply in_and_if_new.
Qed.

Lemma playbook_condition (rq : Request) (v : string) :
  arg_playbook rq = Some v -> v <> EmptyString ->
  In (Sql.LikeParam "playbook" ("%" ++ v ++ "%")) (build_where rq).
Proof.
  intros Hs Hv. unfold build_where. cbv zeta. rewrite Hs. cbn [args_get].
  do 8 apply in_and_if_keep.
  rewrite (truthy_not_empty v Hv). apply in_and_if_new.
Qed.

Lemma playbook_uuid_condition (rq : Request) (u : string) :
  arg_playbook_uuid rq = Some u -> u <> EmptyString ->
  In (Sql.EqParam "playbook_uuid" u) (build_where rq).
Proof.
  intros Hs Hu. unfold build_where. cbv zeta. rewrite Hs. cbn [args_get].
  do 7 apply in_and_if_keep.
  rewrite (truthy_not_empty u Hu). apply in_and_if_new.
Qed.

Lemma module_condition (rq : Request) (v : string) :
  arg_module rq = Some v -> v <> EmptyString ->
  In (Sql.LikeParam "module" ("%" ++ v ++ "%")) (build_where rq).
Proof.
  intros Hs Hv. unfold build_where. cbv zeta. rewrite Hs. cbn [args_get].
  do 6 apply in_and_if_keep.
  rewrite (truthy_not_empty v Hv). apply in_and_if_new.
Qed.

Lemma task_condition (rq : Request) (v : string) :
  arg_task rq = Some v -> v <> EmptyString ->
  In (Sql.LikeParam "task_name" ("%" ++ v ++ "%")) (build_where rq).
Proof.
  intros Hs Hv. unfold build_where. cbv zeta. rewrite Hs. cbn [args_get].
  do 5 apply in_and_if_keep.
  rewrite (truthy_not_empty v Hv). apply in_and_if_new.
Qed.

Lemma status_condition (rq : Request) (v : string) :
  arg_status rq = Some v -> v <> "ALL" ->
  In (Sql.EqParam "status" v) (build_where rq).
Proof.
  intros Hs Hv. unfold build_where. cbv zeta. rewrite Hs. cbn [args_get].
  do 4 apply in_and_if_keep.
  rewrite (proj2 (String.eqb_neq v "ALL") Hv). apply in_and_if_new.
Qed.

Lemma year_condition (rq : Request) (v : string) :
  arg_year rq = Some v -> v <> EmptyString ->
  In (Sql.StrftimeEqParam "%Y" v) (build_where rq).
Proof.
  intros Hs Hv. unfold build_where. cbv zeta. rewrite Hs. cbn [args_get].
  do 3 apply in_and_if_keep.
  rewrite (truthy_not_empty v Hv). apply in_and_if_new.
Qed.

Lemma month_condition (rq : Request) (v : string) :
  arg_month rq = Some v -> v <> EmptyString ->
  In (Sql.StrftimeEqParam "%m" (Py.zfill v 2)) (build_where rq).
Proof.
  intros Hs Hv. unfold build_where. cbv zeta. rewrite Hs. cbn [args_get].
  do 2 apply in_and_if_keep.
  rewrite (truthy_not_empty v Hv). apply in_and_if_new.
Qed.

Lemma day_condition (rq : Request) (v : string) :
  arg_day rq = Some v -> v <> EmptyString ->
  In (Sql.StrftimeEqParam "%d" (Py.zfill v 2)) (build_where rq).
Proof.
  intros Hs Hv. unfold build_where. cbv zeta. rewrite Hs. cbn [args_get].
  do 1 apply in_and_if_keep.
  rewrite (truthy_not_empty v Hv). apply in_and_if_new.
Qed.

Lemma hour_condition (rq : Request) (v : string) :
  arg_hour rq = Some v -> v <> EmptyString ->
  In (Sql.StrftimeEqParam "%H" (Py.zfill v 2)) (build_where rq).
Proof.
  intros Hs Hv. unfold build_where. cbv zeta. rewrite Hs. cbn [args_get].
  rewrite (truthy_not_empty v Hv). apply in_and_if_new.
Qed.

Lemma like_holds (column param : string) (r : Row) (field : option string) :
  Sql.column_text column r = field ->
  Sql.holds (Sql.LikeParam column param) r = true ->
  exists x, field = Some x /\ Sql.like param x = true.
Proof.
  intros <-. cbn [Sql.holds]. destruct (Sql.column_text column r) as [x|];
    [eauto|discriminate].
Qed.

Lemma eq_holds (column param : string) (r : Row) (field : option string) :
  Sql.column_text column r = field ->
  Sql.holds (Sql.EqParam column param) r = true ->
  field = Some param.
Proof.
  intros <-. cbn [Sql.holds]. destruct (Sql.column_text column r) as [x|];
    [|discriminate].
  intros H. apply String.eqb_eq in H. now subst x.
Qed.

Lemma strftime_holds (format param text : string) (r : Row) :
  Sql.strftime format (timestamp r) = Some text ->
  Sql.holds (Sql.StrftimeEqParam format param) r = true ->
  text = param.
Proof.
  intros E. cbn [Sql.holds]. rewrite E. apply String.eqb_eq.
Qed.

(** On a table with the persisted schema, when the database accepts the
    filters and the page, every entry [api_logs] returns is the image of a
    row of the table, and this row passes each filter the request
    supplies: its host, playbook, module and task name match the pattern
    made of the filter text between two [%]; its run identifier and its
    status (other than "ALL") are exactly the ones asked for; and the year,
    month, day and hour of its timestamp are the ones asked for, the last
    three after padding to two digits. *)
Theorem api_logs_entries_pass_filters (s : Store.t) (rq : Request) :
  queryable s = true ->
  like_patterns_ok rq = true ->
  page_in_range (page_of rq) = true ->
  exists tb body,
    s = Some tb /\
    api_logs (Some s) rq = inr (Json body) /\
    forall e,
      In e (data body) ->
      exists r,
        In r (rows tb) /\
        e = entry_of (columns tb) r /\
        (forall v, arg_host rq = Some v -> v <> EmptyString ->
                   exists x, inventory_hostname r = Some x /\
                             Sql.like ("%" ++ v ++ "%") x = true) /\
        (forall v, arg_playbook rq = Some v -> v <> EmptyString ->
                   exists x, playbook r = Some x /\
                             Sql.like ("%" ++ v ++ "%") x = true) /\
        (forall u, arg_playbook_uuid rq = Some u -> u <> EmptyString ->
                   playbook_uuid r = Some u) /\
        (forall v, arg_module rq = Some v -> v <> EmptyString ->
                   exists x, module r = Some x /\
                             Sql.like ("%" ++ v ++ "%") x = true) /\
        (forall v, arg_task rq = Some v -> v <> EmptyString ->
                   exists x, task_name r = Some x /\
                             Sql.like ("%" ++ v ++ "%") x = true) /\
        (forall v, arg_status rq = Some v -> v <> "ALL" ->
                   status r = Some v /\ e_status e = Some v) /\
        (forall v, arg_year rq = Some v -> v <> EmptyString ->
                   DateTime.strftime_Y (timestamp r) = v) /\
        (forall v, arg_month rq = Some v -> v <> EmptyString ->
                   DateTime.strftime_m (timestamp r) = Py.zfill v 2) /\
        (forall v, arg_day rq = Some v -> v <> EmptyString ->
                   DateTime.strftime_d (timestamp r) = Py.zfill v 2) /\
        (forall v, arg_hour rq = Some v -> v <> EmptyString ->
                   DateTime.strftime_H (timestamp r) = Py.zfill v 2).
Proof.
  intros H Hl Hr. destruct s as [tb|]; [|discriminate].
  exists tb. eexists. split; [reflexivity|].
  split; [exact (api_logs_run _ H _ Hl Hr)|].
  cbn [data]. intros e He. apply in_map_iff in He. destruct He as (r & <- & Hin).
  apply in_limit_offset in Hin. apply (proj1 (in_order_by_id_desc _ _)) in Hin.
  unfold matching in Hin. apply filter_In in Hin. destruct Hin as [Hin Hw].
  exists r. do 2 (split; [auto|]).
  unfold Sql.where_holds in Hw. rewrite forallb_forall in Hw.
  repeat split.
  - intros v Hs Hv.
    exact (like_holds _ _ r _ eq_refl (Hw _ (host_condition rq v Hs Hv))).
  - intros v Hs Hv.
    exact (like_holds _ _ r _ eq_refl (Hw _ (playbook_condition rq v Hs Hv))).
  - intros u Hs Hu.
    exact (eq_holds _ _ r _ eq_refl (Hw _ (playbook_uuid_condition rq u Hs Hu))).
  - intros v Hs Hv.
    exact (like_holds _ _ r _ eq_refl (Hw _ (module_condition rq v Hs Hv))).
  - intros v Hs Hv.
    exact (like_holds _ _ r _ eq_refl (Hw _ (task_condition rq v Hs Hv))).
  - exact (eq_holds _ _ r _ eq_refl (Hw _ (status_condition rq v H0 H1))).
  - exact (eq_holds _ _ r _ eq_refl (Hw _ (status_condition rq v H0 H1))).
  - intros v Hs Hv.
    exact (strftime_holds "%Y" _ _ r eq_refl (Hw _ (year_condition rq v Hs Hv))).
  - intros v Hs Hv.
    exact (strftime_holds "%m" _ _ r eq_refl (Hw _ (month_condition rq v Hs Hv))).
  - intros v Hs Hv.
    exact (strftime_holds "%d" _ _ r eq_refl (Hw _ (day_condition rq v Hs Hv))).
  - intros v Hs Hv.
    exact (strftime_holds "%H" _ _ r eq_refl (Hw _ (hour_condition rq v Hs Hv))).
Qed.

Lemma insert_by_id_desc_sorted (r : Row) (l : list Row) :
  StronglySorted (fun a b => id b <= id a) l ->
  StronglySorted (fun a b => id b <= id a) (Sql.insert_by_id_desc r l).
Proof.
  induction 1 as [|r' l Hl IH Hall]; cbn.
  - repeat constructor.
  - destruct (id r' <=? id r) eqn:E.
    + apply Z.leb_le in E. constructor; [now constructor|].
      constructor; [exact E|].
      eapply Forall_impl; [|exact Hall]. cbn. intros a Ha. lia.
    + apply Z.leb_gt in E. constructor; [exact IH|].
      apply Forall_forall. intros x Hx. apply in_insert_by_id_desc in Hx.
      destruct Hx as [->|Hx]; [lia|].
      rewrite Forall_forall in Hall. now apply Hall.
Qed.

Lemma order_by_id_desc_sorted (l : list Row) :
  StronglySorted (fun a b => id b <= id a) (Sql.order_by_id_desc l).
Proof.
  induction l as [|r l IH]; cbn; [constructor|].
  now apply insert_by_id_desc_sorted.
Qed.

Lemma sorted_skipn {A : Type} (R : A -> A -> Prop) (n : nat) (l : list A) :
  StronglySorted R l -> StronglySorted R (skipn n l).
Proof.
  revert l. induction n as [|n IH]; intros l H; [exact H|].
  destruct l as [|a l]; [exact H|]. cbn. apply IH.
  now apply StronglySorted_inv in H.
Qed.

Lemma sorted_firstn {A : Type} (R : A -> A -> Prop) (n : nat) (l : list A) :
  StronglySorted R l -> StronglySorted R (firstn n l).
Proof.
  revert l. induction n as [|n IH]; intros l H; [constructor|].
  destruct l as [|a l]; [constructor|]. cbn.
  apply StronglySorted_inv in H. destruct H as [H Ha].
  constructor; [now apply IH|].
  apply Forall_forall. intros x Hx. apply in_firstn_in in Hx.
  rewrite Forall_forall in Ha. now apply Ha.
Qed.

Lemma sorted_entries (keys : list string) (l : list Row) :
  StronglySorted (fun a b => id b <= id a) l ->
  StronglySorted id_descending (map (entry_of keys) l).
Proof.
  induction 1 as [|r l Hl IH Hall]; cbn [map]; constructor; [exact IH|].
  apply Forall_forall. intros e He. apply in_map_iff in He.
  destruct He as (x & <- & Hx). rewrite Forall_forall in Hall.
  unfold id_descending. cbn. now apply Hall.
Qed.

Lemma or_dash_truthy (k : string) (keys : list string) (v : option string) :
  Py.truthy_str (or_dash k keys v) = true.
Proof.
  unfold or_dash. destruct (existsb _ keys); [|reflexivity].
  destruct v as [x|]; [|reflexivity].
  destruct (Py.truthy_str x) eqn:E; [exact E|reflexivity].
Qed.

(** On a table with the persisted schema, when the database accepts the
    filters and the page, a page of [api_logs] holds at most 100 entries,
    in descending order of id, and none of them has an empty [playbook],
    [playbook_uuid] or [module]: where the row has none, the entry has a
    dash. *)
Theorem api_logs_page_shape (s : Store.t) (rq : Request) :
  queryable s = true ->
  like_patterns_ok rq = true ->
  page_in_range (page_of rq) = true ->
  exists body,
    api_logs (Some s) rq = inr (Json body) /\
    (List.length (data body) <= 100)%nat /\
    StronglySorted id_descending (data body) /\
    forall e,
      In e (data body) ->
      Py.truthy_str (e_playbook e) = true /\
      Py.truthy_str (e_playbook_uuid e) = true /\
      Py.truthy_str (e_module e) = true.
Proof.
  intros H Hl Hr. destruct s as [tb|]; [|discriminate].
  eexists. split; [exact (api_logs_run _ H _ Hl Hr)|]. cbn [data].
  split; [|split].
  - rewrite length_map, limit_offset_lists. unfold PER_PAGE. cbn [Z.ltb Z.compare].
    rewrite length_firstn. change (Z.to_nat 100) with 100%nat. lia.
  - apply sorted_entries. rewrite limit_offset_lists. unfold PER_PAGE.
    cbn [Z.ltb Z.compare].
    apply sorted_firstn, sorted_skipn, order_by_id_desc_sorted.
  - intros e He. apply in_map_iff in He. destruct He as (r & <- & _).
    cbn. repeat split; apply or_dash_truthy.
Qed.

(** *** The page argument and empty arguments *)

(** A [page] argument that is absent or not an integer is served exactly
    as [page=1]; and on a table with the persisted schema, the database
    accepting the filters, a page number below 1 whose offset fits a 64-bit
    integer is answered with the entries of page 1 under the page number
    asked for (there is no lower clamp: the negative offset counts as
    zero). *)
Theorem api_logs_low_or_missing_page (s : Store.t) (rq : Request) :
  queryable s = true ->
  like_patterns_ok rq = true ->
  (arg_page rq = None \/ arg_page rq = Some NotInt ->
   api_logs (Some s) rq = api_logs (Some s) (set_page rq 1)) /\
  forall p,
    p <= 1 ->
    page_in_range p = true ->
    exists body1 bodyp,
      api_logs (Some s) (set_page rq 1) = inr (Json body1) /\
      api_logs (Some s) (set_page rq p) = inr (Json bodyp) /\
      data bodyp = data body1 /\
      page bodyp = p /\
      total_records bodyp = total_records body1.
Proof.
  intros H Hl. destruct s as [tb|]; [|discriminate]. split.
  - intros Hp. unfold api_logs.
    replace (int_page (arg_page (set_page rq 1))) with (@inr Py.PyExn Z 1)
      by reflexivity.
    change (build_where (set_page rq 1)) with (build_where rq).
    destruct Hp as [-> | ->]; reflexivity.
  - intros p Hp Hr. eexists. eexists.
    split; [exact (api_logs_run _ H (set_page rq 1) Hl eq_refl)|].
    split; [exact (api_logs_run _ H (set_page rq p) Hl Hr)|].
    cbn [data page total_records]. split; [|split; reflexivity].
    f_equal. rewrite !limit_offset_lists. unfold PER_PAGE. cbn [Z.ltb Z.compare].
    replace (page_of (set_page rq p)) with p by reflexivity.
    replace (page_of (set_page rq 1)) with 1 by reflexivity.
    replace (Z.to_nat ((p - 1) * 100)) with 0%nat by lia. reflexivity.
Qed.

Lemma args_get_blank (arg : option string) :
  args_get (blank_as_absent arg) EmptyString = args_get arg EmptyString.
Proof. destruct arg as [[|c v]|]; reflexivity. Qed.

Lemma args_get_all (arg : option string) :
  args_get (all_as_absent arg) "ALL" = args_get arg "ALL".
Proof.
  destruct arg as [v|]; [|reflexivity]. cbn.
  destruct (String.eqb v "ALL") eqn:E; [|reflexivity].
  apply String.eqb_eq in E. now subst v.
Qed.

(** For every store, an argument given as the empty text is the same as
    the argument not given, and the [status] "ALL" is the same as no
    [status]: [api_logs] answers both requests alike. *)
Theorem api_logs_blank_arguments (db : option Store.t) (rq : Request) :
  api_logs db (without_blanks rq) = api_logs db rq.
Proof.
  apply api_logs_ext; [|reflexivity].
  unfold build_where, without_blanks.
  cbn [arg_host arg_playbook arg_playbook_uuid arg_module arg_task arg_status
       arg_year arg_month arg_day arg_hour].
  now rewrite !args_get_blank, args_get_all.
Qed.

(** *** Instances on concrete inputs *)

Lemma api_logs_entries_pass_filters_witness :
  exists tb body,
    example_store = Some tb /\
    api_logs (Some example_store) (run_status_request "u1" "OK") = inr (Json body) /\
    forall e,
      In e (data body) ->
      exists r,
        In r (rows tb) /\
        e = entry_of (columns tb) r /\
        (forall v, arg_host (run_status_request "u1" "OK") = Some v -> v <> EmptyString ->
                   exists x, inventory_hostname r = Some x /\
                             Sql.like ("%" ++ v ++ "%") x = true) /\
        (forall v, arg_playbook (run_status_request "u1" "OK") = Some v -> v <> EmptyString ->
                   exists x, playbook r = Some x /\
                             Sql.like ("%" ++ v ++ "%") x = true) /\
        (forall u, arg_playbook_uuid (run_status_request "u1" "OK") = Some u -> u <> EmptyString ->
                   playbook_uuid r = Some u) /\
        (forall v, arg_module (run_status_request "u1" "OK") = Some v -> v <> EmptyString ->
                   exists x, module r = Some x /\
                             Sql.like ("%" ++ v ++ "%") x = true) /\
        (forall v, arg_task (run_status_request "u1" "OK") = Some v -> v <> EmptyString ->
                   exists x, task_name r = Some x /\
                             Sql.like ("%" ++ v ++ "%") x = true) /\
        (forall v, arg_status (run_status_request "u1" "OK") = Some v -> v <> "ALL" ->
                   status r = Some v /\ e_status e = Some v) /\
        (forall v, arg_year (run_status_request "u1" "OK") = Some v -> v <> EmptyString ->
                   DateTime.strftime_Y (timestamp r) = v) /\
        (forall v, arg_month (run_status_request "u1" "OK") = Some v -> v <> EmptyString ->
                   DateTime.strftime_m (timestamp r) = Py.zfill v 2) /\
        (forall v, arg_day (run_status_request "u1" "OK") = Some v -> v <> EmptyString ->
                   DateTime.strftime_d (timestamp r) = Py.zfill v 2) /\
        (forall v, arg_hour (run_status_request "u1" "OK") = Some v -> v <> EmptyString ->
                   DateTime.strftime_H (timestamp r) = Py.zfill v 2).
Proof.
  exact (api_logs_entries_pass_filters example_store
           (run_status_request "u1" "OK") eq_refl eq_refl eq_refl).
Defined.

Lemma api_logs_page_shape_witness :
  exists body,
    api_logs (Some example_store) no_args = inr (Json body) /\
    (List.length (data body) <= 100)%nat /\
    StronglySorted id_descending (data body) /\
    forall e,
      In e (data body) ->
      Py.truthy_str (e_playbook e) = true /\
      Py.truthy_str (e_playbook_uuid e) = true /\
      Py.truthy_str (e_module e) = true.
Proof.
  exact (api_logs_page_shape example_store no_args eq_refl eq_refl eq_refl).
Defined.

Lemma api_logs_low_or_missing_page_witness :
  (arg_page no_args = None \/ arg_page no_args = Some NotInt ->
   api_logs (Some example_store) no_args =
   api_logs (Some example_store) (set_page no_args 1)) /\
  exists body1 bodyp,
    api_logs (Some example_store) (set_page no_args 1) = inr (Json body1) /\
    api_logs (Some example_store) (set_page no_args (-3)) = inr (Json bodyp) /\
    data bodyp = data body1 /\
    page bodyp = -3 /\
    total_records bodyp = total_records body1.
Proof.
  split.
  - exact (proj1 (api_logs_low_or_missing_page example_store no_args
                    eq_refl eq_refl)).
  - apply (proj2 (api_logs_low_or_missing_page example_store no_args
                    eq_refl eq_refl) (-3)); [lia|reflexivity].
Defined.

End QueryMore.

(** * From the recorder to the query service *)

Module EndToEnd.

Import Recorder RecorderFacts RecorderMore Store QueryService QueryFacts QueryMore.
Local Open Scope list_scope.

(** The store a healthy process leaves behind on a fresh database. *)
Lemma healthy_process (env : Env) (w : World) (sgs : list Signal) :
  directory_ready env w = true ->
  connect_ok env = true ->
  ddl_ok env = true ->
  store w = None ->
  all_writes_ok sgs = true ->
  store (world (snd (process env sgs w))) =
  Some (mkTable create_columns (written "Ad-Hoc" "N/A" 1 sgs)
          (Z.of_nat (List.length (filter is_task_outcome sgs)))).
Proof.
  intros Hd Hc Hl Hs Hw. unfold process, __init__.
  rewrite _initialize_db_run. cbv zeta. cbn [world self].
  rewrite (directory_ready_proceeds _ _ Hd), Hc, Hl, Hs. cbn [negb].
  destruct (migrate_under_migrated env (create_table_if_not_exists None) eq_refl)
    as [Hf _].
  destruct (migrate_under env (create_table_if_not_exists None)) as [s' [e|]];
    cbn [fst] in Hf; subst s';
    match goal with
    | |- context [deliver_all sgs ?s0] =>
        destruct (deliver_all_healthy sgs s0 (full_path env)
                    (mkTable create_columns [] 0)
                    eq_refl eq_refl eq_refl Hw) as (st' & E & _ & S)
    end;
    rewrite E; cbn [snd]; rewrite S; reflexivity.
Qed.

Lemma written_outcomes (n u : string) (next : Z) (outs : list Signal) :
  forallb is_task_outcome outs = true ->
  Forall (fun r => playbook_uuid r = Some u /\ playbook r = Some n)
         (written n u next outs) /\
  map status (written n u next outs) =
    map (fun sg => Some (signal_status sg)) outs.
Proof.
  revert next. induction outs as [|sg outs IH]; intros next H.
  - cbn. auto.
  - cbn [forallb] in H. apply andb_prop in H. destruct H as [Hsg H].
    destruct sg as [f v|k io r ign]; [discriminate|].
    destruct (IH (next + 1) H) as [Hf Hm]. cbn [written map]. split.
    + constructor; [cbn; auto|exact Hf].
    + cbn [status signal_status]. now rewrite Hm.
Qed.

Lemma filter_all {A : Type} (f : A -> bool) (l : list A) :
  Forall (fun x => f x = true) l -> filter f l = l.
Proof.
  induction 1 as [|x l Hx Hl IH]; cbn; [reflexivity|]. now rewrite Hx, IH.
Qed.

Lemma singleton_keys (u : string) (l : list string) :
  NoDup l -> In u l -> (forall x, In x l -> x = u) -> l = [u].
Proof.
  intros Hn Hu Hall. destruct l as [|a l]; [destruct Hu|].
  assert (a = u) by (apply Hall; now left). subst a.
  destruct l as [|b l]; [reflexivity|].
  assert (b = u) by (apply Hall; right; now left). subst b.
  inversion Hn as [|? ? Hni _]. exfalso. apply Hni. now left.
Qed.

(** The summaries of a table whose rows all belong to one run. *)
Lemma playbook_runs_one_run (u n : string) (r : Row) (rest : list Row) :
  u <> "N/A" ->
  Forall (fun x => playbook_uuid x = Some u /\ playbook x = Some n) (r :: rest) ->
  exists sm,
    playbook_runs (r :: rest) = [sm] /\
    s_playbook_uuid sm = u /\
    s_playbook sm = Some n /\
    task_count sm = Z.of_nat (List.length (r :: rest)).
Proof.
  intros Hu Hall. unfold playbook_runs.
  assert (Hsel : filter has_run_uuid (r :: rest) = r :: rest).
  { apply filter_all. eapply Forall_impl; [|exact Hall]. cbn.
    intros x [Hx _]. apply has_run_uuid_iff. eauto. }
  assert (Hgrp : filter (in_group u) (r :: rest) = r :: rest).
  { apply filter_all. eapply Forall_impl; [|exact Hall]. cbn.
    intros x [Hx _]. now apply in_group_iff. }
  assert (Hkeys : group_keys (r :: rest) = [u]).
  { apply singleton_keys.
    - apply NoDup_nodup.
    - apply in_group_keys. exists r. split; [now left|].
      now inversion Hall as [|? ? [Hr _] _].
    - intros x Hx. apply in_group_keys in Hx. destruct Hx as (y & Hy & Hxy).
      rewrite Forall_forall in Hall. destruct (Hall y Hy) as [Hyu _]. congruence. }
  rewrite Hsel, Hkeys. cbn [flat_map]. rewrite Hgrp, app_nil_r.
  cbn [summarize order_by_start_desc insert_by_start_desc].
  eexists. split; [reflexivity|].
  cbn [s_playbook_uuid s_playbook task_count]. repeat split.
  rewrite Forall_forall in Hall. now destruct (Hall _ (max_row_In r rest)).
Qed.

(** A process that initializes a fresh database without failure and then
    records one run (a run-start signal with identifier [u], not "N/A",
    followed by task outcomes only, all written) leaves a store on which
    [api_playbooks] answers with exactly one summary: that of [u], under
    the base name of the run's file, counting one task per outcome. *)
Theorem one_run_one_summary
    (env : Env) (w : World) (f u : string) (outs : list Signal) :
  directory_ready env w = true ->
  connect_ok env = true ->
  ddl_ok env = true ->
  store w = None ->
  u <> "N/A" ->
  outs <> [] ->
  forallb is_task_outcome outs = true ->
  all_writes_ok outs = true ->
  exists sm,
    api_playbooks
      (Some (store (world (snd (process env (RunStart f (Some u) :: outs) w))))) =
      inr (Json [sm]) /\
    s_playbook_uuid sm = u /\
    s_playbook sm = Some (Py.basename f) /\
    task_count sm = Z.of_nat (List.length outs).
Proof.
  intros Hd Hc Hl Hs Hu Hne Hk Hw.
  rewrite (healthy_process env w _ Hd Hc Hl Hs) by exact Hw.
  cbn [written]. destruct (written_outcomes (Py.basename f) u 1 outs Hk) as [Hall Hm].
  assert (Hlen : List.length (written (Py.basename f) u 1 outs) = List.length outs)
    by (rewrite <- (length_map status), Hm; apply length_map).
  destruct (written (Py.basename f) u 1 outs) as [|r rest] eqn:E.
  - destruct outs; [congruence|discriminate].
  - destruct (playbook_runs_one_run u _ r rest Hu Hall) as (sm & Hp & Hsu & Hsp & Hc').
    exists sm. unfold api_playbooks. cbn [rows]. rewrite Hp.
    repeat split; [exact Hsu|exact Hsp|]. now rewrite Hc', Hlen.
Qed.

Lemma column_text_playbook_uuid (r : Row) :
  Sql.column_text "playbook_uuid" r = playbook_uuid r.
Proof. reflexivity. Qed.

Lemma column_text_status (r : Row) : Sql.column_text "status" r = status r.
Proof. reflexivity. Qed.

Lemma matching_run_status (u v n : string) (next : Z) (outs : list Signal) :
  forallb is_task_outcome outs = true ->
  List.length
    (filter (Sql.where_holds
               [Sql.EqParam "playbook_uuid" u; Sql.EqParam "status" v])
            (written n u next outs)) =
  List.length (filter (fun sg => String.eqb (signal_status sg) v) outs).
Proof.
  revert next. induction outs as [|sg outs IH]; intros next H; [reflexivity|].
  cbn [forallb] in H. apply andb_prop in H. destruct H as [Hsg H].
  destruct sg as [f x|k io r ign]; [discriminate|].
  cbn [written filter signal_status].
  unfold Sql.where_holds at 1. cbn [forallb Sql.holds].
  rewrite column_text_playbook_uuid, column_text_status.
  cbn [playbook_uuid status]. rewrite String.eqb_refl, andb_true_r. cbn [andb].
  destruct (String.eqb (spec_status k (changed_flag r) ign) v);
    cbn [List.length]; now rewrite IH.
Qed.

(** After such a process, [api_logs] asked for the entries of run [u] with
    status [v] reports as [total_records] the number of task outcomes of
    the run whose derived status is [v]. *)
Theorem run_status_count
    (env : Env) (w : World) (f u v : string) (outs : list Signal) :
  directory_ready env w = true ->
  connect_ok env = true ->
  ddl_ok env = true ->
  store w = None ->
  u <> EmptyString ->
  v <> "ALL" ->
  forallb is_task_outcome outs = true ->
  all_writes_ok outs = true ->
  exists body,
    api_logs
      (Some (store (world (snd (process env (RunStart f (Some u) :: outs) w)))))
      (run_status_request u v) = inr (Json body) /\
    total_records body =
      Z.of_nat (List.length
                  (filter (fun sg => String.eqb (signal_status sg) v) outs)).
Proof.
  intros Hd Hc Hl Hs Hu Hv Hk Hw.
  rewrite (healthy_process env w _ Hd Hc Hl Hs) by exact Hw.
  cbn [written].
  eexists. rewrite api_logs_run by reflexivity. split; [reflexivity|].
  cbn [total_records]. f_equal. unfold matching. cbn [rows].
  replace (build_where (run_status_request u v))
    with [Sql.EqParam "playbook_uuid" u; Sql.EqParam "status" v].
  - now apply matching_run_status.
  - unfold build_where, run_status_request. cbn [arg_host arg_playbook
      arg_playbook_uuid arg_module arg_task arg_status arg_year arg_month
      arg_day arg_hour args_get Py.truthy_str and_if app].
    rewrite (proj2 (String.eqb_neq v "ALL") Hv).
    destruct u; [contradiction|]. reflexivity.
Qed.

(** *** Instances on concrete inputs *)

Lemma one_run_one_summary_witness :
  exists sm,
    api_playbooks
      (Some (store (world (snd (process example_env
                                  (RunStart "/srv/site.yml" (Some "u1")
                                   :: example_outcomes) fresh_world))))) =
      inr (Json [sm]) /\
    s_playbook_uuid sm = "u1" /\
    s_playbook sm = Some (Py.basename "/srv/site.yml") /\
    task_count sm = 5.
Proof.
  exact (one_run_one_summary example_env fresh_world "/srv/site.yml" "u1"
           example_outcomes eq_refl eq_refl eq_refl eq_refl
           ltac:(discriminate) ltac:(discriminate) eq_refl eq_refl).
Defined.

Lemma run_status_count_witness :
  exists body,
    api_logs
      (Some (store (world (snd (process example_env
                                  (RunStart "/srv/site.yml" (Some "u1")
                                   :: example_outcomes) fresh_world)))))
      (run_status_request "u1" "FAILED") = inr (Json body) /\
    total_records body = 1.
Proof.
  exact (run_status_count example_env fresh_world "/srv/site.yml" "u1" "FAILED"
           example_outcomes eq_refl eq_refl eq_refl eq_refl
           ltac:(discriminate) ltac:(discriminate) eq_refl eq_refl).
Defined.

End EndToEnd.
